(** * Query routing and cascading web search: a shallow embedding

    The development follows the three Python modules of the repository:

    - [QueryClassifier] : query_classifier.py;
    - [TavilySearchIntegration] and [WebSearchEnhanced] :
      web_search_tavily.py;
    - [IntelligentSourceRouter] : intelligent_source_router.py.

    Python exceptions are modelled by the error monad [result]; a
    try/except block is [try_except].  Dictionaries whose key set varies
    from one path to another (the parsed classifier payload, the routing
    outcome, the statistics) are finite maps with string keys; dictionaries
    built by the code with a fixed set of keys are records.  Python floats
    are the binary64 numbers of the kernel.  Everything the code does not
    own -- the language model, the JSON and regular-expression libraries,
    the network, the HTML text extraction and the clock -- is an explicit
    input of the function that uses it. *)

From Stdlib Require Import Floats ZArith String Ascii List Bool Lia.
From stdpp Require Import gmap strings list fin_maps option pretty.

Open Scope string_scope.
Open Scope list_scope.
Set Warnings "-inexact-float,-register-all".

(* ===================================================================== *)
(** * Python values, exceptions and string built-ins                     *)
(* ===================================================================== *)

Module Py.

(** The outcome of a call: a value, or a raised exception carried by the
    text that [str(e)] gives. *)
Inductive result (A : Type) : Type :=
| Ok (a : A)
| Raise (msg : string).
Arguments Ok {A} a.
Arguments Raise {A} msg.

#[global] Instance result_ret : MRet result := fun _ a => Ok a.
#[global] Instance result_bind : MBind result := fun _ _ k m =>
  match m with
  | Ok a => k a
  | Raise e => Raise e
  end.

(** [try: body  except Exception as e: handler e] *)
Definition try_except {A} (body : result A) (handler : string -> result A) : result A :=
  match body with
  | Ok a => Ok a
  | Raise e => handler e
  end.

Definition raises {A} (r : result A) : bool :=
  match r with
  | Ok _ => false
  | Raise _ => true
  end.

(** Code that may raise and that updates a state of type [S]: the state
    is threaded through, and the updates made before an exception
    survive it. *)
Definition Stateful (S A : Type) : Type := S -> result A * S.

#[global] Instance stateful_ret {S} : MRet (Stateful S) := fun _ a st => (Ok a, st).
#[global] Instance stateful_bind {S} : MBind (Stateful S) := fun _ _ k m st =>
  match m st with
  | (Ok a, st') => k a st'
  | (Raise e, st') => (Raise e, st')
  end.

(** [try: body  except Exception as e: handler e] for stateful code. *)
Definition eff_try {S A} (body : Stateful S A) (handler : string -> Stateful S A)
    : Stateful S A :=
  fun st =>
    match body st with
    | (Ok a, st') => (Ok a, st')
    | (Raise e, st') => handler e st'
    end.

(** A call that does not touch the state. *)
Definition lift {S A} (r : result A) : Stateful S A := fun st => (r, st).

(** A JSON-shaped Python value, as [json.loads] builds them. *)
Inductive pyval : Type :=
| PNone
| PBool (b : bool)
| PInt (z : Z)
| PFloat (f : float)
| PStr (s : string)
| PList (l : list pyval)
| PDict (d : gmap string pyval).

(** ** Floats *)

(** [float(n)] for an integer: round to nearest even, OverflowError when
    the integer is out of the binary64 range. *)
Definition float_of_Z (z : Z) : result float :=
  let f := SF2Prim (SpecFloat.binary_normalize prec emax z 0 false) in
  if PrimFloat.is_infinity f then Raise "int too large to convert to float" else Ok f.

(** The length of a list as a float; exact below 2^53. *)
Definition float_of_nat (n : nat) : float :=
  SF2Prim (SpecFloat.binary_normalize prec emax (Z.of_nat n) 0 false).

(** ** Strings

    Characters are the 8-bit characters of [string]; the case functions
    below act on the ASCII letters. *)

Definition is_upper (c : ascii) : bool :=
  let n := nat_of_ascii c in (65 <=? n)%nat && (n <=? 90)%nat.

Definition is_lower (c : ascii) : bool :=
  let n := nat_of_ascii c in (97 <=? n)%nat && (n <=? 122)%nat.

Definition lower_char (c : ascii) : ascii :=
  if is_upper c then ascii_of_nat (nat_of_ascii c + 32) else c.

Definition upper_char (c : ascii) : ascii :=
  if is_lower c then ascii_of_nat (nat_of_ascii c - 32) else c.

(** [s.lower()] *)
Fixpoint lower (s : string) : string :=
  match s with
  | EmptyString => EmptyString
  | String c t => String (lower_char c) (lower t)
  end.

(** [s.title()]: the first letter of every run of letters in upper case,
    the others in lower case. *)
Fixpoint title_from (in_word : bool) (s : string) : string :=
  match s with
  | EmptyString => EmptyString
  | String c t =>
      if is_upper c || is_lower c
      then String (if in_word then lower_char c else upper_char c) (title_from true t)
      else String c (title_from false t)
  end.

Definition title (s : string) : string := title_from false s.

(** [s.startswith(p)] *)
Definition startswith (s p : string) : bool := String.prefix p s.

(** [needle in hay] *)
Fixpoint contains (needle hay : string) : bool :=
  String.prefix needle hay ||
  match hay with
  | EmptyString => false
  | String _ t => contains needle t
  end.

(** [any(kw in s for kw in kws)] *)
Definition any_in (kws : list string) (s : string) : bool :=
  existsb (fun kw => contains kw s) kws.

(** [s[:n]] *)
Fixpoint take_prefix (n : nat) (s : string) : string :=
  match n, s with
  | S k, String c t => String c (take_prefix k t)
  | _, _ => EmptyString
  end.

(** [s.replace(old, new)] for a non-empty [old]: occurrences are replaced
    from left to right and do not overlap; [skip] counts the characters of
    a replaced occurrence still to be dropped. *)
Fixpoint replace_from (skip : nat) (old new s : string) : string :=
  match s with
  | EmptyString => EmptyString
  | String c t =>
      match skip with
      | S k => replace_from k old new t
      | O =>
          if String.prefix old s
          then new +:+ replace_from (String.length old - 1) old new t
          else String c (replace_from 0 old new t)
      end
  end.

Definition replace (old new s : string) : string := replace_from 0 old new s.

(** The truth value of a string, and of an optional string ([None] and
    the empty string are false). *)
Definition truthy (s : string) : bool := negb (String.eqb s "").

Definition truthy_opt (o : option string) : bool :=
  match o with
  | Some s => truthy s
  | None => false
  end.

(** [x or d] on optional strings. *)
Definition str_or (o : option string) (d : string) : string :=
  match o with
  | Some s => if truthy s then s else d
  | None => d
  end.

(** The double-quote character, for the texts that contain one. *)
Definition dquote : string := String (ascii_of_nat 34) EmptyString.

End Py.
Export Py.

(* ===================================================================== *)
(** * query_classifier.py                                                *)
(* ===================================================================== *)

Module QueryClassifier.

(** The routing decision returned by the classifier: the dictionary with
    the keys datasource, reasoning, confidence and query.  The default
    decision of the router has no query key. *)
Record Routing : Type := {
  datasource : string;
  reasoning : pyval;
  confidence : float;
  rquery : option string
}.

(** The classifier object: its key and the name of its model. *)
Record t : Type := {
  api_key : option string;
  model : string
}.

(** The language model behind [router_chain.invoke]: from the query and
    the context hint to the text of the response, or an exception. *)
Definition LLM : Type := string -> string -> result string.

(** What [json.loads] does with a text: it returns a value, raises a
    JSONDecodeError, or raises an exception of another class (a plain
    ValueError for an integer beyond the digit limit, a RecursionError
    for a text nested too deep). *)
Inductive Decoding : Type :=
| Decoded (v : pyval)
| JSONDecodeError
| OtherError (msg : string).

(** Library functions used by the parser.  The three searches give the
    text matched by the pattern (the whole match for the object pattern,
    the first group for the reasoning and confidence patterns);
    [float_of_str] is [None] on a ValueError. *)
Record PyLib : Type := {
  json_loads : string -> Decoding;
  re_object : string -> option string;
  re_reasoning : string -> option string;
  re_confidence : string -> option string;
  float_of_str : string -> option float
}.

Definition valid_sources : list string := ["local_rag"; "web_search"; "hybrid"].

Definition general_knowledge_patterns : list string :=
  [ "what is"; "what are"; "who is"; "who are";
    "explain"; "how does"; "how do"; "how to";
    "define"; "definition of";
    "tell me about"; "describe";
    "why"; "when"; "where";
    "weather"; "temperature"; "forecast";
    "news"; "latest"; "current"; "recent";
    "history of"; "background on" ].

Definition document_indicators : list string :=
  [ "my document"; "my file"; "my pdf"; "my paper";
    "the document"; "the file"; "the pdf"; "the paper";
    "uploaded"; "attachment";
    "according to my"; "based on my";
    "in my file"; "in the document" ].

Definition document_keywords : list string :=
  [ "my document"; "my file"; "my pdf"; "my paper";
    "the document"; "the file"; "the pdf"; "uploaded file";
    "in my document"; "according to my document";
    "what does my"; "summarize my"; "analyze my" ].

Definition web_keywords : list string :=
  [ "latest"; "current"; "recent"; "news"; "today"; "now";
    "what is"; "what are"; "explain"; "define"; "how does";
    "weather"; "temperature"; "forecast";
    "2025"; "2024"; "this year" ].

(** [_is_general_knowledge] *)
Definition _is_general_knowledge (query : string) : bool :=
  let query_lower := lower query in
  let has_doc_indicator := any_in document_indicators query_lower in
  if has_doc_indicator then false
  else
    let has_general_pattern := any_in general_knowledge_patterns query_lower in
    if has_general_pattern then true
    else true.

(** [_fallback_classification] *)
Definition _fallback_classification (query : string) (has_uploaded_docs : bool) : Routing :=
  let query_lower := lower query in
  let has_explicit_doc_ref := any_in document_keywords query_lower in
  let has_web_intent := any_in web_keywords query_lower in
  if negb has_uploaded_docs then
    {| datasource := "web_search";
       reasoning := PStr "No local documents available - using web search";
       confidence := 0.9;
       rquery := Some query |}
  else if has_explicit_doc_ref && has_uploaded_docs then
    if has_web_intent then
      {| datasource := "hybrid";
         reasoning := PStr "Query mentions both uploaded documents and external information";
         confidence := 0.75;
         rquery := Some query |}
    else
      {| datasource := "local_rag";
         reasoning := PStr "Query explicitly references uploaded documents";
         confidence := 0.85;
         rquery := Some query |}
  else if has_web_intent || _is_general_knowledge query then
    {| datasource := "web_search";
       reasoning := PStr "General knowledge or external information query";
       confidence := 0.8;
       rquery := Some query |}
  else
    {| datasource := "web_search";
       reasoning := PStr "General query - using web search by default";
       confidence := 0.7;
       rquery := Some query |}.

(** [float(v)] *)
Definition py_float (lib : PyLib) (v : pyval) : result float :=
  match v with
  | PFloat f => Ok f
  | PInt z => float_of_Z z
  | PBool b => Ok (if b then 1 else 0)%float
  | PStr s =>
      match float_of_str lib s with
      | Some f => Ok f
      | None => Raise "could not convert string to float"
      end
  | _ => Raise "float() argument must be a string or a real number"
  end.

(** [v.get]: only a dictionary has the method. *)
Definition as_dict (v : pyval) : result (gmap string pyval) :=
  match v with
  | PDict d => Ok d
  | _ => Raise "object has no attribute 'get'"
  end.

(** [d.get("datasource") == s] *)
Definition datasource_is (d : gmap string pyval) (s : string) : bool :=
  match d !! "datasource" with
  | Some (PStr t) => String.eqb t s
  | _ => false
  end.

(** [d.get("datasource") in sources] *)
Definition datasource_in (d : gmap string pyval) (sources : list string) : bool :=
  existsb (datasource_is d) sources.

(** [_parse_json_response]: the outer handler catches the
    JSONDecodeError only, the inner one every exception. *)
Definition _parse_json_response (lib : PyLib) (content : string) : result pyval :=
  match json_loads lib content with
  | Decoded v => Ok v
  | OtherError e => Raise e
  | JSONDecodeError =>
      let extracted :=
        match re_object lib content with
        | Some json_match =>
            match json_loads lib json_match with
            | Decoded v => Some v
            | JSONDecodeError => None
            | OtherError _ => None
            end
        | None => None
        end in
      match extracted with
      | Some v => Ok v
      | None =>
          let ds :=
            if contains "local_rag" (lower content) then "local_rag"
            else if contains "hybrid" (lower content) then "hybrid"
            else "web_search" in
          let rs :=
            match re_reasoning lib content with
            | Some g => g
            | None => "Classification based on query content"
            end in
          cf ← match re_confidence lib content with
               | Some g => py_float lib (PStr g)
               | None => Ok 0.7%float
               end;
          Ok (PDict (<["confidence" := PFloat cf]>
                    (<["reasoning" := PStr rs]>
                    (<["datasource" := PStr ds]> ∅))))
      end
  end.

Definition context_info (has_uploaded_docs : bool) : string :=
  "User has " +:+
  (if has_uploaded_docs then "uploaded documents available" else "NO uploaded documents").

(** The validation step of [classify_query]: a datasource outside the
    valid ones becomes web_search. *)
Definition validate_datasource (d : gmap string pyval) : gmap string pyval :=
  if negb (datasource_in d valid_sources)
  then <["datasource" := PStr "web_search"]> d
  else d.

(** The first override of [classify_query]: no uploaded documents. *)
Definition override_no_documents (has_uploaded_docs : bool) (d : gmap string pyval)
    : gmap string pyval :=
  if negb has_uploaded_docs && datasource_in d ["local_rag"; "hybrid"]
  then <["confidence" := PFloat 0.9]>
       (<["reasoning" := PStr "No local documents available - using web search"]>
       (<["datasource" := PStr "web_search"]> d))
  else d.

(** The second override of [classify_query]: a general knowledge
    question. *)
Definition override_general_knowledge (has_uploaded_docs : bool) (query : string)
    (d : gmap string pyval) : gmap string pyval :=
  if has_uploaded_docs && datasource_is d "local_rag"
  then
    if _is_general_knowledge query
    then <["confidence" := PFloat 0.85]>
         (<["reasoning" := PStr "General knowledge question - using web search"]>
         (<["datasource" := PStr "web_search"]> d))
    else d
  else d.

(** The dictionary returned at the end of the try block. *)
Definition decision_of (lib : PyLib) (query : string) (d : gmap string pyval)
    : result Routing :=
  cf ← py_float lib (default (PFloat 0.7) (d !! "confidence"));
  Ok {| datasource :=
          match d !! "datasource" with
          | Some (PStr s) => s
          | _ => "web_search"
          end;
        reasoning := default (PStr "Default routing") (d !! "reasoning");
        confidence := cf;
        rquery := Some query |}.

(** The body of the try block of [classify_query]. *)
Definition classify_with_llm (lib : PyLib) (self : t) (llm : LLM)
    (query : string) (has_uploaded_docs : bool) : result Routing :=
  content ← llm query (context_info has_uploaded_docs);
  parsed ← _parse_json_response lib content;
  d ← as_dict parsed;
  let d := validate_datasource d in
  let d := override_no_documents has_uploaded_docs d in
  let d := override_general_knowledge has_uploaded_docs query d in
  decision_of lib query d.

(** [classify_query] *)
Definition classify_query (lib : PyLib) (self : t) (llm : LLM)
    (query : string) (has_uploaded_docs : bool) : result Routing :=
  try_except
    (classify_with_llm lib self llm query has_uploaded_docs)
    (fun _ => Ok (_fallback_classification query has_uploaded_docs)).

End QueryClassifier.

(* ===================================================================== *)
(** * web_search_tavily.py                                               *)
(* ===================================================================== *)

(** Data shared by the search classes. *)
Module Web.

(** One search result: the dictionary with the keys title, url, snippet
    and source, and the optional keys type, raw_content and full_content.
    The title, the url and the snippet are texts: a decoded payload that
    holds another JSON value under one of these keys is not covered. *)
Record SearchResult : Type := {
  r_title : string;
  r_url : string;
  r_snippet : string;
  r_source : string;
  r_type : option string;
  r_raw_content : option string;
  r_full_content : option string
}.

(** A call of the HTTP client ([requests.post] or [session.get]), by
    method and address.  What the client does inside one call -- the
    retries of the session's adapter, the redirects it follows -- is not
    counted. *)
Inductive request : Type :=
| Post (address : string)
| Get (address : string).

(** An entry of the ArXiv feed: each element may be missing, and the text
    of a present element may be [None]. *)
Record ArxivEntry : Type := {
  title_elem : option (option string);
  summary_elem : option (option string);
  id_elem : option (option string)
}.

(** What the network answers during one search.  Each provider answers
    with the decoded payload of a successful response, or the request
    fails (connection error, timeout, error status, undecodable payload).
    The Tavily payload is its answer and its results; the other payloads
    are the lists of items the code iterates over.  [page_text] is the
    text extracted from the page at an address, lines and blanks already
    normalised. *)
Record Net : Type := {
  tavily_response : result (option string * list (gmap string string));
  wikipedia_response : result (list (gmap string string));
  arxiv_response : result (list ArxivEntry);
  google_response : result (list (gmap string string));
  bing_response : result (list (gmap string string));
  page_text : string -> result string
}.

(** The readings of [datetime.now()] used by the code. *)
Record Clock : Type := {
  current_time : string;   (* %Y-%m-%d %H:%M:%S *)
  current_date : string;   (* %B %d, %Y *)
  iso_now : string         (* isoformat() *)
}.

(** Code that may raise and that calls the HTTP client: the calls made
    so far are the state. *)
Abbreviation Eff := (Stateful (list request)).

(** Call the client and receive its answer: the decoded response, or
    the exception raised once the client has given up. *)
Definition http {A} (rq : request) (answer : result A) : Eff A :=
  fun log => (answer, log ++ [rq]).

(** Run a computation from an empty list of requests. *)
Definition run {A} (m : Eff A) : result A * list request := m [].

(** [max_results or default]: zero is false, every other integer is
    true. *)
Definition limit_or (max_results : option Z) (default_limit : Z) : Z :=
  match max_results with
  | Some n => if (n =? 0)%Z then default_limit else n
  | None => default_limit
  end.

(** [items[:n]]: a negative [n] counts from the end of the list. *)
Definition slice_to {A} (n : Z) (items : list A) : list A :=
  if (0 <=? n)%Z then take (Z.to_nat n) items
  else take (length items - Z.to_nat (- n)) items.

(** [item.get(key, default)] on a decoded item. *)
Definition item_get (item : gmap string string) (key default_value : string) : string :=
  default default_value (item !! key).

(** [bool(results)] for a list. *)
Definition nonempty {A} (l : list A) : bool :=
  match l with
  | [] => false
  | _ :: _ => true
  end.

End Web.
Export Web.

Module TavilySearchIntegration.

Record t : Type := {
  api_key : option string;
  base_url : string
}.

Definition direct_answer (answer : string) : SearchResult :=
  {| r_title := "Direct Answer"; r_url := ""; r_snippet := answer;
     r_source := "Tavily"; r_type := Some "answer";
     r_raw_content := None; r_full_content := None |}.

Definition formatted_result (item : gmap string string) : SearchResult :=
  {| r_title := item_get item "title" "No title";
     r_url := item_get item "url" "";
     r_snippet := item_get item "snippet" "";
     r_source := "Tavily"; r_type := Some "web";
     r_raw_content := Some (item_get item "raw_content" "");
     r_full_content := None |}.

(** [search] *)
Definition search (self : t) (net : Net) (query : string)
    (max_results : Z) (include_answer : bool) : Eff (list SearchResult) :=
  if negb (truthy_opt (api_key self)) then mret []
  else
    eff_try
      (data ← http (Post (base_url self)) (tavily_response net);
       let answer := fst data in
       let results :=
         if include_answer && truthy_opt answer
         then [direct_answer (default "" answer)]
         else [] in
       mret (results ++ map formatted_result (slice_to max_results (snd data))))
      (fun _ => mret []).

End TavilySearchIntegration.

Module WebSearchEnhanced.

Record t : Type := {
  max_results : Z;
  tavily : TavilySearchIntegration.t;
  google_api_key : option string;
  google_search_engine_id : option string;
  bing_api_key : option string
}.

(** A result with the four keys every provider sets. *)
Definition plain_result (title url snippet source : string) : SearchResult :=
  {| r_title := title; r_url := url; r_snippet := snippet; r_source := source;
     r_type := None; r_raw_content := None; r_full_content := None |}.

(** [search_tavily] *)
Definition search_tavily (self : t) (net : Net) (query : string)
    (max_results_arg : option Z) : Eff (list SearchResult) :=
  let results_limit := limit_or max_results_arg (max_results self) in
  TavilySearchIntegration.search (tavily self) net query results_limit true.

Definition span_open : string := "<span class=" +:+ dquote +:+ "searchmatch" +:+ dquote +:+ ">".

Definition wikipedia_result (item : gmap string string) : SearchResult :=
  plain_result
    (item_get item "title" "No title")
    ("https://en.wikipedia.org/wiki/" +:+ replace " " "_" (item_get item "title" ""))
    (replace "</span>" "" (replace span_open "" (item_get item "snippet" "")))
    "Wikipedia".

(** [search_wikipedia] *)
Definition search_wikipedia (self : t) (net : Net) (query : string)
    (max_results_arg : option Z) : Eff (list SearchResult) :=
  eff_try
    (search_results ← http (Get "https://en.wikipedia.org/w/api.php") (wikipedia_response net);
     mret (map wikipedia_result search_results))
    (fun _ => mret []).

(** The text of an element; a missing element has no attribute text. *)
Definition elem_text (elem : option (option string)) : result (option string) :=
  match elem with
  | Some text => Ok text
  | None => Raise "'NoneType' object has no attribute 'text'"
  end.

(** The body of the loop of [search_arxiv] for one entry: [Ok None] when
    the entry has no title element. *)
Definition arxiv_result (entry : ArxivEntry) : result (option SearchResult) :=
  match title_elem entry with
  | None => Ok None
  | Some title_text =>
      id_text ← elem_text (id_elem entry);
      summary_text ← elem_text (summary_elem entry);
      Ok (Some (plain_result
                  (str_or title_text "No title")
                  (replace "http://" "https://" (str_or id_text ""))
                  (take_prefix 300 (str_or summary_text ""))
                  "ArXiv"))
  end.

(** The loop of [search_arxiv]: an entry whose processing raises is
    skipped. *)
Fixpoint arxiv_results (entries : list ArxivEntry) : list SearchResult :=
  match entries with
  | [] => []
  | entry :: rest =>
      match arxiv_result entry with
      | Ok (Some r) => r :: arxiv_results rest
      | Ok None => arxiv_results rest
      | Raise _ => arxiv_results rest
      end
  end.

(** [search_arxiv] *)
Definition search_arxiv (self : t) (net : Net) (query : string)
    (max_results_arg : option Z) : Eff (list SearchResult) :=
  eff_try
    (entries ← http (Get "http://export.arxiv.org/api/query") (arxiv_response net);
     mret (arxiv_results entries))
    (fun _ => mret []).

Definition google_result (item : gmap string string) : SearchResult :=
  plain_result (item_get item "title" "No title") (item_get item "link" "")
               (item_get item "snippet" "") "Google".

(** [search_google_api] *)
Definition search_google_api (self : t) (net : Net) (query : string)
    (max_results_arg : option Z) : Eff (list SearchResult) :=
  if negb (truthy_opt (google_api_key self)) || negb (truthy_opt (google_search_engine_id self))
  then mret []
  else
    eff_try
      (let results_limit := limit_or max_results_arg (max_results self) in
       items ← http (Get "https://www.googleapis.com/customsearch/v1") (google_response net);
       mret (map google_result (slice_to results_limit items)))
      (fun _ => mret []).

Definition bing_result (item : gmap string string) : SearchResult :=
  plain_result (item_get item "name" "No title") (item_get item "url" "")
               (item_get item "snippet" "") "Bing".

(** [search_bing_api] *)
Definition search_bing_api (self : t) (net : Net) (query : string)
    (max_results_arg : option Z) : Eff (list SearchResult) :=
  if negb (truthy_opt (bing_api_key self)) then mret []
  else
    eff_try
      (let results_limit := limit_or max_results_arg (max_results self) in
       items ← http (Get "https://api.bing.microsoft.com/v7.0/search") (bing_response net);
       mret (map bing_result (slice_to results_limit items)))
      (fun _ => mret []).

(** [search_mock] *)
Definition search_mock (clock : Clock) (query : string) : list SearchResult :=
  [ plain_result
      ("Information about " +:+ query)
      ("https://local.search/results?q=" +:+ replace " " "+" query)
      ("Based on available knowledge about " +:+ query +:+ " as of " +:+ current_date clock
         +:+ ". This is a local cached result.")
      "Local Cache";
    plain_result
      ("Related: " +:+ title query +:+ " Overview")
      ("https://local.search/related?q=" +:+ replace " " "+" query)
      ("General information and context related to " +:+ query +:+ ". Updated: "
         +:+ current_time clock +:+ ".")
      "Local Cache" ].

(** One level of the chain of [search]: a provider call inside its own
    try block; [continue] runs when the provider raised or returned
    nothing. *)
Definition level (provider : Eff (list SearchResult))
    (continue : Eff (list SearchResult)) : Eff (list SearchResult) :=
  results ← eff_try provider (fun _ => mret []);
  if nonempty results then mret results else continue.

(** [search] *)
Definition search (self : t) (net : Net) (clock : Clock) (query : string)
    (max_results_arg : option Z) : Eff (list SearchResult) :=
  let results_limit := Some (limit_or max_results_arg (max_results self)) in
  level (search_tavily self net query results_limit)
  (level (search_wikipedia self net query results_limit)
  (level (search_arxiv self net query results_limit)
  (level (search_google_api self net query results_limit)
  (level (search_bing_api self net query results_limit)
  (mret (search_mock clock query)))))).

(** The body of the try block of [fetch_page_content]. *)
Definition fetch_page_body (net : Net) (url : string) : Eff (option string) :=
  if negb (truthy url) || negb (startswith url "http") then mret None
  else
    text ← http (Get url) (page_text net url);
    let content := take_prefix 3000 text in
    mret (if truthy content then Some content else None).

(** [fetch_page_content] *)
Definition fetch_page_content (self : t) (net : Net) (url : string) : Eff (option string) :=
  eff_try (fetch_page_body net url) (fun _ => mret None).

Definition set_full_content (r : SearchResult) (content : string) : SearchResult :=
  {| r_title := r_title r; r_url := r_url r; r_snippet := r_snippet r;
     r_source := r_source r; r_type := r_type r; r_raw_content := r_raw_content r;
     r_full_content := Some content |}.

(** The body of the loop of [search_and_extract] for one result. *)
Definition extract_one (self : t) (net : Net) (r : SearchResult) : Eff SearchResult :=
  let url := r_url r in
  if truthy url && startswith url "http"
  then
    eff_try
      (content ← fetch_page_content self net url;
       mret (if truthy_opt content
             then set_full_content r (default "" content)
             else set_full_content r (r_snippet r)))
      (fun _ => mret (set_full_content r (r_snippet r)))
  else mret (set_full_content r (r_snippet r)).

Fixpoint extract_all (self : t) (net : Net) (results : list SearchResult)
    : Eff (list SearchResult) :=
  match results with
  | [] => mret []
  | r :: rest =>
      r' ← extract_one self net r;
      rest' ← extract_all self net rest;
      mret (r' :: rest')
  end.

(** [search_and_extract] *)
Definition search_and_extract (self : t) (net : Net) (clock : Clock)
    (query : string) (fetch_content : bool) : Eff (list SearchResult) :=
  results ← search self net clock query None;
  if negb (nonempty results) || negb fetch_content then mret results
  else extract_all self net results.

Definition newline : string := String (ascii_of_nat 10) EmptyString.

(** The lines of [format_results_for_context] for one result. *)
Definition context_entry (i : nat) (r : SearchResult) : string :=
  let snippet := r_snippet r in
  let full_content := default snippet (r_full_content r) in
  let content := if truthy full_content then full_content else snippet in
  "[Result " +:+ pretty i +:+ "]" +:+ newline
  +:+ "Title: " +:+ r_title r +:+ newline
  +:+ "Source: " +:+ r_source r +:+ newline
  +:+ (if truthy (r_url r) then "URL: " +:+ r_url r +:+ newline else "")
  +:+ (if truthy content
       then "Content: " +:+ take_prefix 400 content +:+ newline
       else "Content: [No content available]" +:+ newline)
  +:+ newline.

Fixpoint context_entries (i : nat) (results : list SearchResult) : string :=
  match results with
  | [] => ""
  | r :: rest => context_entry i r +:+ context_entries (S i) rest
  end.

(** [format_results_for_context] *)
Definition format_results_for_context (clock : Clock) (results : list SearchResult) : string :=
  if negb (nonempty results) then "No search results available."
  else
    "=== WEB SEARCH RESULTS (As of " +:+ current_date clock +:+ ") ===" +:+ newline +:+ newline
    +:+ context_entries 1 results.

End WebSearchEnhanced.

Module HybridSearchEnhanced.

Record t : Type := {
  web_search : WebSearchEnhanced.t
}.

(** The dictionary returned by [hybrid_retrieve]. *)
Record Retrieval (A : Type) : Type := {
  local_results : list A;
  web_results : list SearchResult;
  query : string;
  retrieval_type : string
}.
Arguments local_results {A} _.
Arguments web_results {A} _.
Arguments query {A} _.
Arguments retrieval_type {A} _.

(** [hybrid_retrieve] *)
Definition hybrid_retrieve {A} (self : t) (net : Net) (clock : Clock) (q : string)
    (locals : list A) (web_results_count : Z) : Eff (Retrieval A) :=
  found ← WebSearchEnhanced.search (web_search self) net clock q (Some web_results_count);
  mret {| local_results := locals;
          web_results := found;
          query := q;
          retrieval_type := "hybrid" |}.

End HybridSearchEnhanced.

(* ===================================================================== *)
(** * intelligent_source_router.py                                       *)
(* ===================================================================== *)

Module IntelligentSourceRouter.

Import QueryClassifier.

(** A chunk returned by the local retriever. *)
Record Document : Type := {
  page_content : string;
  metadata : gmap string string
}.

(** The local retriever: [get_relevant_documents]. *)
Definition Retriever : Type := string -> result (list Document).

(** An element of the list under the key sources. *)
Inductive SourceRef : Type :=
| LocalSource (source page chunk content : string)
| WebSource (title url snippet full_content source result_type : string)
| HybridWebSource (title url content source : string).

(** The values stored in a routing outcome. *)
Inductive value : Type :=
| VStr (s : string)
| VInt (n : nat)
| VRouting (r : Routing)
| VSources (l : list SourceRef)
| VResults (l : list SearchResult).

(** An entry of the routing history. *)
Record HistoryEntry : Type := {
  h_query : string;
  h_datasource : string;
  h_reasoning : pyval;
  h_confidence : float;
  h_retrieval_type : string;
  h_num_sources : nat;
  h_error : option string;
  h_timestamp : string
}.

(** The router object. *)
Record t : Type := {
  query_classifier : option QueryClassifier.t;
  web_search : option WebSearchEnhanced.t;
  fetch_full_content : bool;
  routing_history : list HistoryEntry
}.

(** What the environment answers during one call of [route_query]. *)
Record World : Type := {
  llm : LLM;
  net : Net;
  clock : Clock
}.

Definition nl : string := String (ascii_of_nat 10) EmptyString.

(** [s * n] *)
Fixpoint repeat_str (s : string) (n : nat) : string :=
  match n with
  | O => ""
  | S k => s +:+ repeat_str s k
  end.

Definition rule (c : string) : string := repeat_str c 70.

(** Lookups with a default, by the type of the value found. *)
Definition get_str (d : gmap string value) (key default_value : string) : string :=
  match d !! key with
  | Some (VStr s) => s
  | _ => default_value
  end.

Definition get_error (d : gmap string value) : option string :=
  match d !! "error" with
  | Some (VStr s) => Some s
  | _ => None
  end.

Definition get_routing (d : gmap string value) : option Routing :=
  match d !! "routing" with
  | Some (VRouting r) => Some r
  | _ => None
  end.

Definition num_sources (d : gmap string value) : nat :=
  match d !! "sources" with
  | Some (VSources l) => length l
  | _ => 0
  end.

(** [_fallback_datasource_selection] *)
Definition router_web_keywords : list string :=
  [ "latest"; "current"; "recent"; "news"; "today"; "now"; "update";
    "2024"; "2025"; "trending"; "new"; "latest news"; "current events";
    "breaking"; "recent developments"; "today news" ].

Definition router_local_keywords : list string :=
  [ "document"; "file"; "uploaded"; "pdf"; "image"; "my";
    "attachment"; "what does"; "according to"; "based on" ].

Definition _fallback_datasource_selection (has_uploaded_docs : bool) (query : string) : string :=
  let query_lower := lower query in
  let has_web_intent := any_in router_web_keywords query_lower in
  let has_local_intent := any_in router_local_keywords query_lower in
  if has_web_intent && has_local_intent && has_uploaded_docs then "hybrid"
  else if has_local_intent && has_uploaded_docs then "local_rag"
  else "web_search".

(** ** Web retrieval *)

Definition web_content (r : SearchResult) : string :=
  let full_content := default (r_snippet r) (r_full_content r) in
  if truthy full_content then full_content else r_snippet r.

Definition web_block (i : nat) (r : SearchResult) : string :=
  "[Result " +:+ pretty i +:+ "] (" +:+ r_source r +:+ " - " +:+ default "web" (r_type r) +:+ ")" +:+ nl
  +:+ "Title: " +:+ r_title r +:+ nl
  +:+ (if truthy (r_url r) then "URL: " +:+ r_url r +:+ nl else "")
  +:+ "Content:" +:+ nl +:+ web_content r +:+ nl
  +:+ rule "-" +:+ nl +:+ nl.

Fixpoint web_blocks (i : nat) (results : list SearchResult) : string :=
  match results with
  | [] => ""
  | r :: rest => web_block i r +:+ web_blocks (S i) rest
  end.

Definition web_source (r : SearchResult) : SourceRef :=
  WebSource (r_title r) (r_url r) (r_snippet r) (web_content r)
            (r_source r) (default "web" (r_type r)).

Definition web_error (e : string) : gmap string value :=
  <["context" := VStr ("Error performing web search: " +:+ e)]>
  (<["sources" := VSources []]>
  (<["retrieval_type" := VStr "web_search"]>
  (<["error" := VStr e]>
  (<["raw_search_results" := VResults []]> ∅)))).

(** [_retrieve_web] *)
Definition _retrieve_web (self : t) (w : World) (query : string) : result (gmap string value) :=
  match web_search self with
  | None =>
      Ok (<["context" := VStr "Web search is not enabled."]>
         (<["sources" := VSources []]>
         (<["retrieval_type" := VStr "web_search"]>
         (<["error" := VStr "Web search not enabled"]> ∅))))
  | Some ws =>
      try_except
        (web_results ← fst (run (WebSearchEnhanced.search_and_extract
                                   ws (net w) (clock w) query (fetch_full_content self)));
         if negb (nonempty web_results)
         then
           Ok (<["context" := VStr "No web search results found for your query."]>
              (<["sources" := VSources []]>
              (<["retrieval_type" := VStr "web_search"]>
              (<["num_results" := VInt 0]>
              (<["raw_search_results" := VResults []]> ∅)))))
         else
           let context :=
             "=== 🌐 WEB SEARCH RESULTS (Tavily Enhanced, As of "
               +:+ current_date (clock w) +:+ ") ===" +:+ nl +:+ nl
             +:+ "Search Query: " +:+ query +:+ nl
             +:+ rule "=" +:+ nl +:+ nl
             +:+ web_blocks 1 web_results in
           Ok (<["context" := VStr context]>
              (<["sources" := VSources (map web_source web_results)]>
              (<["retrieval_type" := VStr "web_search"]>
              (<["num_results" := VInt (length web_results)]>
              (<["raw_search_results" := VResults web_results]> ∅))))))
        (fun e => Ok (web_error e))
  end.

(** ** Local retrieval *)

Definition doc_source (doc : Document) : string := default "Unknown" (metadata doc !! "source").
Definition doc_page (doc : Document) : string := default "N/A" (metadata doc !! "page").
Definition doc_chunk (doc : Document) : string := default "N/A" (metadata doc !! "chunk").

(** The locator lines shared by the local and the hybrid formats. *)
Definition locator (page chunk : string) : string :=
  (if negb (String.eqb page "N/A") then "Page: " +:+ page +:+ " | " else "")
  +:+ (if negb (String.eqb chunk "N/A") then "Chunk: " +:+ chunk +:+ nl else "").

Definition local_block (i : nat) (doc : Document) : string :=
  "[Document " +:+ pretty i +:+ "] " +:+ doc_source doc +:+ nl
  +:+ locator (doc_page doc) (doc_chunk doc)
  +:+ "Content: " +:+ page_content doc +:+ nl +:+ nl.

Fixpoint local_blocks (i : nat) (docs : list Document) : string :=
  match docs with
  | [] => ""
  | doc :: rest => local_block i doc +:+ local_blocks (S i) rest
  end.

Definition local_source (doc : Document) : SourceRef :=
  LocalSource (doc_source doc) (doc_page doc) (doc_chunk doc) (page_content doc).

(** [_retrieve_local] *)
Definition _retrieve_local (self : t) (query : string) (local_retriever : option Retriever)
    : result (gmap string value) :=
  match local_retriever with
  | None =>
      Ok (<["context" := VStr "No local documents available."]>
         (<["sources" := VSources []]>
         (<["retrieval_type" := VStr "local_rag"]>
         (<["error" := VStr "No local retriever configured"]> ∅))))
  | Some get_relevant_documents =>
      try_except
        (docs ← get_relevant_documents query;
         if negb (nonempty docs)
         then
           Ok (<["context" := VStr "No relevant documents found in uploaded files."]>
              (<["sources" := VSources []]>
              (<["retrieval_type" := VStr "local_rag"]>
              (<["num_results" := VInt 0]> ∅))))
         else
           let context :=
             "=== 📄 LOCAL DOCUMENT RESULTS ===" +:+ nl +:+ nl +:+ local_blocks 1 docs in
           Ok (<["context" := VStr context]>
              (<["sources" := VSources (map local_source docs)]>
              (<["retrieval_type" := VStr "local_rag"]>
              (<["num_results" := VInt (length docs)]> ∅)))))
        (fun e =>
           Ok (<["context" := VStr ("Error retrieving local documents: " +:+ e)]>
              (<["sources" := VSources []]>
              (<["retrieval_type" := VStr "local_rag"]>
              (<["error" := VStr e]> ∅)))))
  end.

(** ** Hybrid retrieval *)

Definition hybrid_local_block (i : nat) (doc : Document) : string :=
  "[Local " +:+ pretty i +:+ "] " +:+ doc_source doc +:+ nl
  +:+ locator (doc_page doc) (doc_chunk doc)
  +:+ "Content: " +:+ page_content doc +:+ nl +:+ nl.

Fixpoint hybrid_local_blocks (i : nat) (docs : list Document) : string :=
  match docs with
  | [] => ""
  | doc :: rest => hybrid_local_block i doc +:+ hybrid_local_blocks (S i) rest
  end.

Definition hybrid_content (r : SearchResult) : string :=
  default (r_snippet r) (r_full_content r).

Definition hybrid_web_block (i : nat) (r : SearchResult) : string :=
  "[Web " +:+ pretty i +:+ "] " +:+ r_title r +:+ " (" +:+ r_source r +:+ ")" +:+ nl
  +:+ (if truthy (r_url r) then "URL: " +:+ r_url r +:+ nl else "")
  +:+ "Content: " +:+ hybrid_content r +:+ nl +:+ nl.

Fixpoint hybrid_web_blocks (i : nat) (results : list SearchResult) : string :=
  match results with
  | [] => ""
  | r :: rest => hybrid_web_block i r +:+ hybrid_web_blocks (S i) rest
  end.

Definition hybrid_web_source (r : SearchResult) : SourceRef :=
  HybridWebSource (r_title r) (r_url r) (hybrid_content r) (r_source r).

(** The local side of [_retrieve_hybrid]: a failure leaves the list empty. *)
Definition hybrid_local_results (query : string) (local_retriever : option Retriever)
    : list Document :=
  match local_retriever with
  | Some get_relevant_documents =>
      match get_relevant_documents query with
      | Ok local_docs => local_docs
      | Raise _ => []
      end
  | None => []
  end.

(** The web side of [_retrieve_hybrid]: a failure leaves the list empty. *)
Definition hybrid_web_results (self : t) (w : World) (query : string) : list SearchResult :=
  match web_search self with
  | Some ws =>
      match fst (run (WebSearchEnhanced.search_and_extract
                        ws (net w) (clock w) query (fetch_full_content self))) with
      | Ok web_results => web_results
      | Raise _ => []
      end
  | None => []
  end.

(** [_retrieve_hybrid] *)
Definition _retrieve_hybrid (self : t) (w : World) (query : string)
    (local_retriever : option Retriever) : result (gmap string value) :=
  try_except
    (let local_results := hybrid_local_results query local_retriever in
     let web_results := hybrid_web_results self w query in
     let hybrid_context :=
       "=== 🔄 HYBRID RETRIEVAL RESULTS (As of " +:+ current_date (clock w) +:+ ") ===" +:+ nl +:+ nl
       +:+ "📄 LOCAL DOCUMENTS:" +:+ nl
       +:+ rule "-" +:+ nl
       +:+ (if nonempty local_results
            then hybrid_local_blocks 1 local_results
            else "No local documents found." +:+ nl +:+ nl)
       +:+ nl +:+ "🌐 WEB SEARCH RESULTS (Tavily Enhanced):" +:+ nl
       +:+ rule "-" +:+ nl
       +:+ (if nonempty web_results
            then hybrid_web_blocks 1 web_results
            else "No web results found." +:+ nl +:+ nl) in
     let all_sources := map local_source local_results ++ map hybrid_web_source web_results in
     Ok (<["context" := VStr hybrid_context]>
        (<["sources" := VSources all_sources]>
        (<["retrieval_type" := VStr "hybrid"]>
        (<["num_local_results" := VInt (length local_results)]>
        (<["num_web_results" := VInt (length web_results)]>
        (<["total_results" := VInt (length local_results + length web_results)]>
        (<["raw_search_results" := VResults web_results]> ∅))))))))
    (fun e =>
       Ok (<["context" := VStr ("Error in hybrid retrieval: " +:+ e)]>
          (<["sources" := VSources []]>
          (<["retrieval_type" := VStr "hybrid"]>
          (<["error" := VStr e]>
          (<["raw_search_results" := VResults []]> ∅)))))).

(** ** Routing *)

Definition default_routing : Routing :=
  {| datasource := "web_search";
     reasoning := PStr "Default routing";
     confidence := 0.5;
     rquery := None |}.

(** [_save_routing_history]: the entry built from a routing outcome. *)
Definition history_entry (w : World) (result : gmap string value) : HistoryEntry :=
  {| h_query := get_str result "query" "";
     h_datasource :=
       match get_routing result with
       | Some r => datasource r
       | None => "unknown"
       end;
     h_reasoning :=
       match get_routing result with
       | Some r => reasoning r
       | None => PStr ""
       end;
     h_confidence :=
       match get_routing result with
       | Some r => confidence r
       | None => 0
       end;
     h_retrieval_type := get_str result "retrieval_type" "unknown";
     h_num_sources := num_sources result;
     h_error := get_error result;
     h_timestamp := iso_now (clock w) |}.

(** The mutable state of one call of [route_query]: the outcome being
    built and the routing history of the router. *)
Record RouteState : Type := {
  outcome : gmap string value;
  history : list HistoryEntry
}.

Definition update_outcome (f : gmap string value -> gmap string value)
    : Stateful RouteState unit :=
  fun st => (Ok tt, {| outcome := f (outcome st); history := history st |}).

Definition read_outcome : Stateful RouteState (gmap string value) :=
  fun st => (Ok (outcome st), st).

(** [_save_routing_history] *)
Definition _save_routing_history (w : World) (result : gmap string value)
    : Stateful RouteState unit :=
  eff_try
    (fun st => (Ok tt, {| outcome := outcome st;
                          history := history st ++ [history_entry w result] |}))
    (fun _ => mret tt).

(** The routing decision of step 1 of [route_query]. *)
Definition routing_decision (lib : PyLib) (self : t) (w : World)
    (query : string) (has_uploaded_docs : bool) : result Routing :=
  match query_classifier self with
  | None =>
      let datasource := _fallback_datasource_selection has_uploaded_docs query in
      Ok {| datasource := datasource;
            reasoning := PStr "Default routing (classifier unavailable)";
            confidence := 0.5;
            rquery := None |}
  | Some classifier =>
      classify_query lib classifier (llm w) query has_uploaded_docs
  end.

(** Step 1 of [route_query]: the decision is stored under the key
    routing. *)
Definition classify_step (lib : PyLib) (self : t) (w : World)
    (query : string) (has_uploaded_docs : bool) : Stateful RouteState unit :=
  routing ← lift (routing_decision lib self w query has_uploaded_docs);
  update_outcome (fun result => <["routing" := VRouting routing]> result).

(** The retrieval method chosen for a datasource. *)
Definition dispatch (self : t) (w : World) (query : string)
    (local_retriever : option Retriever) (datasource : string)
    : result (gmap string value) :=
  if String.eqb datasource "local_rag" then _retrieve_local self query local_retriever
  else if String.eqb datasource "web_search" then _retrieve_web self w query
  else if String.eqb datasource "hybrid" then _retrieve_hybrid self w query local_retriever
  else _retrieve_web self w query.

(** Step 2 of [route_query]: the retrieval named by the decision, merged
    into the outcome by [result.update]. *)
Definition retrieve_step (self : t) (w : World) (query : string)
    (local_retriever : option Retriever) : Stateful RouteState unit :=
  result ← read_outcome;
  routing ← lift (match get_routing result with
                  | Some r => Ok r
                  | None => Raise "'routing'"
                  end);
  retrieval_result ← lift (dispatch self w query local_retriever (datasource routing));
  update_outcome (fun result => retrieval_result ∪ result).

(** The initial outcome of [route_query]. *)
Definition initial_outcome (query : string) : gmap string value :=
  <["query" := VStr query]>
  (<["routing" := VRouting default_routing]>
  (<["context" := VStr ""]>
  (<["sources" := VSources []]>
  (<["raw_search_results" := VResults []]> ∅)))).

(** The router with its history replaced. *)
Definition with_history (self : t) (h : list HistoryEntry) : t :=
  {| query_classifier := query_classifier self;
     web_search := web_search self;
     fetch_full_content := fetch_full_content self;
     routing_history := h |}.

(** [route_query]: the outcome returned to the caller (or the exception
    raised to the caller) and the router after the call. *)
Definition route_query (lib : PyLib) (self : t) (w : World) (query : string)
    (local_retriever : option Retriever) (has_uploaded_docs : bool)
    : result (gmap string value) * t :=
  let body :=
    eff_try
      (classify_step lib self w query has_uploaded_docs;;
       retrieve_step self w query local_retriever;;
       result ← read_outcome;
       _save_routing_history w result)
      (fun e =>
         update_outcome (fun result =>
           <["context" := VStr ("Error during routing: " +:+ e)]>
           (<["error" := VStr e]> result)));;
    read_outcome in
  let (returned, st) :=
    body {| outcome := initial_outcome query; history := routing_history self |} in
  (returned, with_history self (history st)).

(** ** Statistics *)

(** The values stored in the statistics. *)
Inductive stat : Type :=
| SInt (n : nat)
| SFloat (f : float)
| SCounts (m : gmap string nat)
| SHistory (h : list HistoryEntry).

(** The variables updated by the loop of [get_routing_stats]. *)
Record Tally : Type := {
  by_source : gmap string nat;
  by_retrieval_type : gmap string nat;
  total_confidence : float;
  error_count : nat
}.

Definition empty_tally : Tally :=
  {| by_source := ∅; by_retrieval_type := ∅; total_confidence := 0; error_count := 0 |}.

(** [counts[key] = counts.get(key, 0) + 1] *)
Definition bump (key : string) (counts : gmap string nat) : gmap string nat :=
  <[key := default 0 (counts !! key) + 1]> counts.

(** One iteration of the loop. *)
Definition tally_entry (acc : Tally) (entry : HistoryEntry) : Tally :=
  {| by_source := bump (h_datasource entry) (by_source acc);
     by_retrieval_type := bump (h_retrieval_type entry) (by_retrieval_type acc);
     total_confidence := (total_confidence acc + h_confidence entry)%float;
     error_count :=
       if truthy_opt (h_error entry) then error_count acc + 1 else error_count acc |}.

Definition tally (entries : list HistoryEntry) : Tally :=
  fold_left tally_entry entries empty_tally.

(** [get_routing_stats]: the statistics, and the router after the call. *)
Definition get_routing_stats : Stateful t (gmap string stat) :=
  fun self =>
    let routing_history := routing_history self in
    if negb (nonempty routing_history)
    then
      (Ok (<["total_queries" := SInt 0]>
          (<["by_source" := SCounts ∅]>
          (<["by_retrieval_type" := SCounts ∅]>
          (<["avg_confidence" := SFloat 0]>
          (<["error_count" := SInt 0]> ∅))))),
       self)
    else
      let total := length routing_history in
      let acc := tally routing_history in
      (Ok (<["total_queries" := SInt total]>
          (<["by_source" := SCounts (by_source acc)]>
          (<["by_retrieval_type" := SCounts (by_retrieval_type acc)]>
          (<["avg_confidence" :=
               SFloat (if (0 <? total)%nat
                       then (total_confidence acc / float_of_nat total)%float
                       else 0%float)]>
          (<["error_count" := SInt (error_count acc)]>
          (<["success_rate" :=
               SFloat (if (0 <? total)%nat
                       then (float_of_nat (total - error_count acc) / float_of_nat total)%float
                       else 0%float)]>
          (<["routing_history" := SHistory routing_history]> ∅))))))),
       self).

(** [__init__], given the objects it managed to build. *)
Definition init (classifier : option QueryClassifier.t)
    (enable_web_search : bool) (ws : option WebSearchEnhanced.t)
    (fetch_content : bool) : t :=
  {| query_classifier := classifier;
     web_search := if enable_web_search then ws else None;
     fetch_full_content := fetch_content;
     routing_history := [] |}.

(** The router after a sequence of calls of [route_query], each with its
    own inputs and its own answers from the environment. *)
Record Call : Type := {
  c_world : World;
  c_query : string;
  c_retriever : option Retriever;
  c_has_docs : bool
}.

Definition after_call (lib : PyLib) (self : t) (c : Call) : t :=
  snd (route_query lib self (c_world c) (c_query c) (c_retriever c) (c_has_docs c)).

Definition after_calls (lib : PyLib) (self : t) (calls : list Call) : t :=
  fold_left (after_call lib) calls self.

End IntelligentSourceRouter.

(* ===================================================================== *)
(** * Sample inputs                                                      *)
(* ===================================================================== *)

Module Samples.

Import QueryClassifier.

(** A payload that names local_rag. *)
Definition local_payload : gmap string pyval :=
  <["datasource" := PStr "local_rag"]>
  (<["reasoning" := PStr "The user asks about a file"]>
  (<["confidence" := PFloat 0.95]> ∅)).

(** A JSON library that decodes every text to [local_payload]. *)
Definition lib : PyLib :=
  {| json_loads := fun _ => Decoded (PDict local_payload);
     re_object := fun _ => None;
     re_reasoning := fun _ => None;
     re_confidence := fun _ => None;
     float_of_str := fun _ => None |}.

(** A JSON library that decodes every text to the given value. *)
Definition decoding (v : pyval) : PyLib :=
  {| json_loads := fun _ => Decoded v;
     re_object := fun _ => None;
     re_reasoning := fun _ => None;
     re_confidence := fun _ => None;
     float_of_str := fun _ => None |}.

(** A JSON library that decodes nothing, finds no object and no
    reasoning, finds the given confidence text and converts no text to a
    float. *)
Definition sniffing (confidence_text : option string) : PyLib :=
  {| json_loads := fun _ => JSONDecodeError;
     re_object := fun _ => None;
     re_reasoning := fun _ => None;
     re_confidence := fun _ => confidence_text;
     float_of_str := fun _ => None |}.

(** Payloads: a null confidence, a datasource that is not a valid one,
    and a hybrid decision with an integer confidence. *)
Definition null_confidence_payload : gmap string pyval :=
  <["datasource" := PStr "web_search"]> (<["confidence" := PNone]> ∅).

Definition unknown_source_payload : gmap string pyval :=
  <["datasource" := PStr "database"]>
  (<["reasoning" := PStr "Look it up in the database"]> ∅).

Definition hybrid_payload : gmap string pyval :=
  <["datasource" := PStr "hybrid"]> (<["confidence" := PInt 1]> ∅).

Definition classifier : QueryClassifier.t :=
  {| api_key := Some "sk-test"; model := "gpt-4o-mini" |}.

Definition answering_llm : LLM := fun _ _ => Ok "payload".

Definition failing_llm : LLM := fun _ _ => Raise "connection refused".

(** A search object with no credential at all. *)
Definition no_keys : WebSearchEnhanced.t :=
  {| WebSearchEnhanced.max_results := 5%Z;
     WebSearchEnhanced.tavily :=
       {| TavilySearchIntegration.api_key := None;
          TavilySearchIntegration.base_url := "https://api.tavily.com/search" |};
     WebSearchEnhanced.google_api_key := None;
     WebSearchEnhanced.google_search_engine_id := None;
     WebSearchEnhanced.bing_api_key := None |}.

(** A search object with a Tavily key only. *)
Definition keyed : WebSearchEnhanced.t :=
  {| WebSearchEnhanced.max_results := 5%Z;
     WebSearchEnhanced.tavily :=
       {| TavilySearchIntegration.api_key := Some "tvly-test";
          TavilySearchIntegration.base_url := "https://api.tavily.com/search" |};
     WebSearchEnhanced.google_api_key := None;
     WebSearchEnhanced.google_search_engine_id := None;
     WebSearchEnhanced.bing_api_key := None |}.

(** A search object with the Google and Bing credentials and a limit of
    one result. *)
Definition with_api_keys : WebSearchEnhanced.t :=
  {| WebSearchEnhanced.max_results := 1%Z;
     WebSearchEnhanced.tavily :=
       {| TavilySearchIntegration.api_key := None;
          TavilySearchIntegration.base_url := "https://api.tavily.com/search" |};
     WebSearchEnhanced.google_api_key := Some "google-test";
     WebSearchEnhanced.google_search_engine_id := Some "engine-test";
     WebSearchEnhanced.bing_api_key := Some "bing-test" |}.

(** A network on which every request fails. *)
Definition dead_net : Net :=
  {| tavily_response := Raise "connection refused";
     wikipedia_response := Raise "connection refused";
     arxiv_response := Raise "connection refused";
     google_response := Raise "connection refused";
     bing_response := Raise "connection refused";
     page_text := fun _ => Raise "connection refused" |}.


(** A network on which Tavily, Google and Bing answer with two items. *)
Definition crowded_net : Net :=
  {| tavily_response := Ok (None, [<["title" := "Rocq"]> ∅; <["title" := "Coq"]> ∅]);
     wikipedia_response := Raise "connection refused";
     arxiv_response := Raise "connection refused";
     google_response := Ok [<["title" := "Rocq"]> ∅; <["title" := "Coq"]> ∅];
     bing_response := Ok [<["name" := "Rocq"]> ∅; <["name" := "Coq"]> ∅];
     page_text := fun _ => Raise "connection refused" |}.

Definition clock : Clock :=
  {| current_time := "2025-01-15 10:30:00";
     current_date := "January 15, 2025";
     iso_now := "2025-01-15T10:30:00" |}.

(** A router with a classifier and a search object, and worlds in which
    the language model answers or fails. *)
Definition router : IntelligentSourceRouter.t :=
  IntelligentSourceRouter.init (Some classifier) true (Some no_keys) true.

(** The same router with web search disabled. *)
Definition offline_router : IntelligentSourceRouter.t :=
  IntelligentSourceRouter.init (Some classifier) false (Some no_keys) true.

Definition failing_world : IntelligentSourceRouter.World :=
  {| IntelligentSourceRouter.llm := failing_llm;
     IntelligentSourceRouter.net := dead_net;
     IntelligentSourceRouter.clock := clock |}.

Definition answering_world : IntelligentSourceRouter.World :=
  {| IntelligentSourceRouter.llm := answering_llm;
     IntelligentSourceRouter.net := dead_net;
     IntelligentSourceRouter.clock := clock |}.

Definition document : IntelligentSourceRouter.Document :=
  {| IntelligentSourceRouter.page_content := "Section 1. Scope of the report.";
     IntelligentSourceRouter.metadata := <["source" := "report.pdf"]> (<["page" := "3"]> ∅) |}.

Definition retriever : IntelligentSourceRouter.Retriever := fun _ => Ok [document].

Definition failing_retriever : IntelligentSourceRouter.Retriever :=
  fun _ => Raise "index unavailable".

End Samples.

(* ===================================================================== *)
(** * Facts about the monads and the classifier                                         *)
(* ===================================================================== *)

Module PyFacts.

Lemma bind_ok_inv {A B} (m : result A) (k : A -> result B) (b : B) :
  m ≫= k = Ok b -> exists a, m = Ok a /\ k a = Ok b.
Proof. destruct m as [a|e]; [eauto | discriminate]. Qed.

Lemma bind_ok {A B} (m : result A) (k : A -> result B) (a : A) :
  m = Ok a -> m ≫= k = k a.
Proof. by intros ->. Qed.

Lemma bind_raise {A B} (m : result A) (k : A -> result B) (e : string) :
  m = Raise e -> m ≫= k = Raise e.
Proof. by intros ->. Qed.

End PyFacts.
Import PyFacts.

Module QueryClassifierFacts.

Import QueryClassifier.

Lemma datasource_in_spec d sources :
  datasource_in d sources = true <->
  exists s, d !! "datasource" = Some (PStr s) /\ In s sources.
Proof.
  unfold datasource_in. rewrite existsb_exists. unfold datasource_is.
  split.
  - intros (s & Hin & Hs). destruct (d !! "datasource") as [[]|] eqn:E; try discriminate.
    apply String.eqb_eq in Hs. subst. eauto.
  - intros (s & -> & Hin). exists s. split; [done|]. apply String.eqb_refl.
Qed.

(** After the validation step the payload names one of the three
    sources. *)
Lemma validate_datasource_valid d :
  exists s, validate_datasource d !! "datasource" = Some (PStr s) /\ In s valid_sources.
Proof.
  unfold validate_datasource.
  destruct (datasource_in d valid_sources) eqn:E; cbn [negb].
  - by apply datasource_in_spec in E.
  - exists "web_search". rewrite lookup_insert_eq. split; [done|]. simpl. tauto.
Qed.

(** With no uploaded documents the first override leaves web_search. *)
Lemma override_no_documents_web d s :
  d !! "datasource" = Some (PStr s) -> In s valid_sources ->
  override_no_documents false d !! "datasource" = Some (PStr "web_search").
Proof.
  intros Hs Hin. unfold override_no_documents. cbn [negb andb].
  destruct (datasource_in d ["local_rag"; "hybrid"]) eqn:E.
  - rewrite !lookup_insert_ne by done. by rewrite lookup_insert_eq.
  - rewrite Hs. rewrite <- not_true_iff_false, datasource_in_spec in E.
    destruct Hin as [<-|[<-|[<-|[]]]]; [exfalso|done|exfalso];
      apply E; eexists; (split; [exact Hs|simpl; tauto]).
Qed.

Lemma override_general_knowledge_no_docs q d :
  override_general_knowledge false q d = d.
Proof. reflexivity. Qed.

Lemma decision_of_datasource lib q d r s :
  d !! "datasource" = Some (PStr s) -> decision_of lib q d = Ok r -> datasource r = s.
Proof.
  intros Hs. unfold decision_of.
  destruct (py_float lib _); [|discriminate]. cbn. intros [= <-]. cbn. by rewrite Hs.
Qed.

(** The language-model path with no uploaded documents. *)
Lemma classify_with_llm_no_docs lib self llm q r :
  classify_with_llm lib self llm q false = Ok r -> datasource r = "web_search".
Proof.
  unfold classify_with_llm. intros H.
  apply bind_ok_inv in H as (content & _ & H).
  apply bind_ok_inv in H as (parsed & _ & H).
  apply bind_ok_inv in H as (d & _ & H).
  destruct (validate_datasource_valid d) as (s & Hs & Hin).
  rewrite override_general_knowledge_no_docs in H.
  eapply decision_of_datasource; [|exact H]. eapply override_no_documents_web; eauto.
Qed.

(** [classify_query] never raises. *)
Lemma classify_query_total lib self llm q has_docs :
  exists r, classify_query lib self llm q has_docs = Ok r.
Proof.
  unfold classify_query, try_except.
  destruct (classify_with_llm lib self llm q has_docs); eauto.
Qed.

Lemma fallback_no_docs q :
  datasource (_fallback_classification q false) = "web_search".
Proof. reflexivity. Qed.

Lemma classify_query_no_docs lib self llm q r :
  classify_query lib self llm q false = Ok r -> datasource r = "web_search".
Proof.
  unfold classify_query, try_except.
  destruct (classify_with_llm lib self llm q false) eqn:E.
  - intros [= <-]. eauto using classify_with_llm_no_docs.
  - intros [= <-]. apply fallback_no_docs.
Qed.

Lemma override_no_documents_with_docs d : override_no_documents true d = d.
Proof. reflexivity. Qed.

(** C5.  With uploaded documents, when the parsed and validated decision
    of the language model is local_rag and the query is a general
    knowledge question that contains no document-reference phrase,
    [classify_query] returns web_search with the general-knowledge
    reasoning and confidence 0.85. *)
Theorem general_knowledge_override lib self llm q content d :
  llm q (context_info true) = Ok content ->
  _parse_json_response lib content = Ok (PDict d) ->
  datasource_is (validate_datasource d) "local_rag" = true ->
  _is_general_knowledge q = true ->
  any_in document_indicators (lower q) = false ->
  classify_query lib self llm q true =
    Ok {| datasource := "web_search";
          reasoning := PStr "General knowledge question - using web search";
          confidence := 0.85;
          rquery := Some q |}.
Proof.
  intros Hllm Hparse Hlocal Hgk _.
  unfold classify_query, classify_with_llm.
  rewrite (bind_ok _ _ _ Hllm), (bind_ok _ _ _ Hparse).
  rewrite (bind_ok (as_dict (PDict d)) _ d eq_refl).
  rewrite override_no_documents_with_docs.
  unfold override_general_knowledge. rewrite Hlocal, Hgk. cbn [andb].
  unfold decision_of.
  rewrite lookup_insert_eq.
  rewrite (bind_ok _ _ 0.85%float eq_refl).
  rewrite (lookup_insert_ne _ "confidence" "datasource") by done.
  rewrite (lookup_insert_ne _ "reasoning" "datasource") by done.
  rewrite (lookup_insert_ne _ "confidence" "reasoning") by done.
  rewrite !lookup_insert_eq.
  reflexivity.
Qed.

Lemma general_knowledge_override_witness :
  classify_query Samples.lib Samples.classifier Samples.answering_llm "What is the weather in Tokyo?" true =
    Ok {| datasource := "web_search";
          reasoning := PStr "General knowledge question - using web search";
          confidence := 0.85;
          rquery := Some "What is the weather in Tokyo?" |}.
Proof.
  apply (general_knowledge_override
           Samples.lib Samples.classifier Samples.answering_llm _ "payload"
           Samples.local_payload);
    vm_compute; reflexivity.
Defined.

End QueryClassifierFacts.

(* ===================================================================== *)
(** * Facts about the web search                                         *)
(* ===================================================================== *)

Module WebSearchFacts.

Import WebSearchEnhanced.

Lemma take_prefix_length n s : String.length (take_prefix n s) <= n.
Proof.
  revert s. induction n as [|n IH]; intros [|c s]; simpl; try lia.
  specialize (IH s). lia.
Qed.

(** A provider declines when it returns the empty list or raises. *)
Definition declines (provider : Eff (list SearchResult)) : Prop :=
  forall log, fst (provider log) = Ok [] \/ exists e, fst (provider log) = Raise e.

(** A computation that always returns at least one result. *)
Definition yields_results (m : Eff (list SearchResult)) : Prop :=
  forall log, exists results log', m log = (Ok results, log') /\ 1 <= length results.

Lemma level_yields provider continue :
  yields_results continue -> yields_results (level provider continue).
Proof.
  intros Hk log. unfold level, mbind, stateful_bind, eff_try.
  destruct (provider log) as [[[|r rs]|e] log1]; simpl.
  - apply Hk.
  - exists (r :: rs), log1. split; [done|simpl; lia].
  - apply Hk.
Qed.

Lemma level_declines provider continue log :
  declines provider -> exists log1, level provider continue log = continue log1.
Proof.
  intros Hp. unfold level, mbind, stateful_bind, eff_try.
  destruct (Hp log) as [H|[e H]]; destruct (provider log) as [[rs|e'] log1];
    simpl in H; try discriminate; exists log1.
  - by injection H as ->.
  - done.
Qed.

Lemma mock_yields clock q : yields_results (mret (search_mock clock q)).
Proof. intros log. exists (search_mock clock q), log. split; [done|simpl; lia]. Qed.

Lemma search_yields self net clock q max_results_arg :
  yields_results (search self net clock q max_results_arg).
Proof.
  apply (level_yields _ _ (level_yields _ _ (level_yields _ _
    (level_yields _ _ (level_yields _ _ (mock_yields clock q)))))).
Qed.

(** The names under which the real providers tag their results. *)
Definition real_provider_names : list string :=
  ["Tavily"; "Wikipedia"; "ArXiv"; "Google"; "Bing"].

(** C1.  [search] returns at least one result whatever the credentials
    and the answers of the network; when the five real providers all
    decline, the results are those of [search_mock], each tagged Local
    Cache, a name that no real provider uses. *)
Theorem search_returns_results self net clock q max_results_arg log :
  let limit := Some (limit_or max_results_arg (max_results self)) in
  (exists results log',
      search self net clock q max_results_arg log = (Ok results, log') /\
      1 <= length results) /\
  (declines (search_tavily self net q limit) ->
   declines (search_wikipedia self net q limit) ->
   declines (search_arxiv self net q limit) ->
   declines (search_google_api self net q limit) ->
   declines (search_bing_api self net q limit) ->
   exists log', search self net clock q max_results_arg log = (Ok (search_mock clock q), log')) /\
  Forall (fun r => r_source r = "Local Cache") (search_mock clock q) /\
  ~ In "Local Cache" real_provider_names.
Proof.
  intros limit. split; [|split; [|split]].
  - apply search_yields.
  - intros H0 H1 H2 H3 H4. unfold search. fold limit.
    destruct (level_declines _ (level (search_wikipedia self net q limit)
      (level (search_arxiv self net q limit)
      (level (search_google_api self net q limit)
      (level (search_bing_api self net q limit)
      (mret (search_mock clock q)))))) log H0) as [l0 ->].
    destruct (level_declines _ (level (search_arxiv self net q limit)
      (level (search_google_api self net q limit)
      (level (search_bing_api self net q limit)
      (mret (search_mock clock q))))) l0 H1) as [l1 ->].
    destruct (level_declines _ (level (search_google_api self net q limit)
      (level (search_bing_api self net q limit)
      (mret (search_mock clock q)))) l1 H2) as [l2 ->].
    destruct (level_declines _ (level (search_bing_api self net q limit)
      (mret (search_mock clock q))) l2 H3) as [l3 ->].
    destruct (level_declines _ (mret (search_mock clock q)) l3 H4) as [l4 ->].
    by exists l4.
  - repeat constructor.
  - simpl. intros [H|[H|[H|[H|[H|[]]]]]]; discriminate.
Qed.

Lemma search_returns_results_witness :
  exists log',
    search Samples.no_keys Samples.dead_net Samples.clock "rocq" None [] =
      (Ok (search_mock Samples.clock "rocq"), log').
Proof.
  apply (search_returns_results Samples.no_keys Samples.dead_net Samples.clock "rocq" None []);
    intros log; left; reflexivity.
Defined.

(** C7.  A provider whose credential is absent ([None] or the empty
    string) returns the empty list at once and issues no request: the
    list of requests is the one it was called with. *)
Theorem missing_credential_skips_network self net q max_results_arg log :
  (truthy_opt (google_api_key self) = false \/
   truthy_opt (google_search_engine_id self) = false ->
   search_google_api self net q max_results_arg log = (Ok [], log)) /\
  (truthy_opt (bing_api_key self) = false ->
   search_bing_api self net q max_results_arg log = (Ok [], log)) /\
  (forall (tv : TavilySearchIntegration.t) n include_answer,
     truthy_opt (TavilySearchIntegration.api_key tv) = false ->
     TavilySearchIntegration.search tv net q n include_answer log = (Ok [], log)).
Proof.
  split; [|split].
  - intros H. unfold search_google_api.
    destruct H as [-> | ->]; cbn [negb orb]; [done|].
    by rewrite orb_true_r.
  - intros H. unfold search_bing_api. by rewrite H.
  - intros tv n ia H. unfold TavilySearchIntegration.search. by rewrite H.
Qed.

Lemma missing_credential_skips_network_witness :
  search_google_api Samples.no_keys Samples.dead_net "rocq" None [] = (Ok [], []) /\
  search_bing_api Samples.no_keys Samples.dead_net "rocq" None [] = (Ok [], []) /\
  TavilySearchIntegration.search
    (tavily Samples.no_keys) Samples.dead_net "rocq" 5%Z true [] = (Ok [], []).
Proof.
  destruct (missing_credential_skips_network
              Samples.no_keys Samples.dead_net "rocq" None []) as (Hg & Hb & Ht).
  split; [|split].
  - apply Hg. left. reflexivity.
  - apply Hb. reflexivity.
  - apply Ht. reflexivity.
Defined.

(** The value returned by [fetch_page_content] does not depend on the
    requests issued before the call. *)
Definition fetched (net : Net) (url : string) : option string :=
  if negb (truthy url) || negb (startswith url "http") then None
  else
    match page_text net url with
    | Ok text =>
        let content := take_prefix 3000 text in
        if truthy content then Some content else None
    | Raise _ => None
    end.

Lemma fetch_page_content_fetched self net url log :
  exists log', fetch_page_content self net url log = (Ok (fetched net url), log').
Proof.
  unfold fetch_page_content, fetch_page_body, fetched, eff_try.
  destruct (negb (truthy url) || negb (startswith url "http")); [by exists log|].
  unfold mbind, stateful_bind, http.
  destruct (page_text net url); by eexists.
Qed.

(** What [search_and_extract] stores under full_content. *)
Definition enriched (net : Net) (r : SearchResult) : SearchResult :=
  set_full_content r
    (match fetched net (r_url r) with
     | Some content => if truthy content then content else r_snippet r
     | None => r_snippet r
     end).

Lemma fetched_not_http net url :
  truthy url && startswith url "http" = false -> fetched net url = None.
Proof.
  unfold fetched. intros H.
  destruct (truthy url), (startswith url "http"); simpl in *; done.
Qed.

Lemma extract_one_enriched self net r log :
  exists log', extract_one self net r log = (Ok (enriched net r), log').
Proof.
  unfold extract_one, enriched.
  destruct (truthy (r_url r) && startswith (r_url r) "http") eqn:E.
  - unfold eff_try at 1, mbind, stateful_bind.
    destruct (fetch_page_content_fetched self net (r_url r) log) as [log' ->].
    exists log'. destruct (fetched net (r_url r)) as [c|]; simpl; [|done].
    by destruct (truthy c).
  - exists log. by rewrite (fetched_not_http _ _ E).
Qed.

Lemma extract_all_enriched self net results log :
  exists log', extract_all self net results log = (Ok (map (enriched net) results), log').
Proof.
  revert log. induction results as [|r rest IH]; intros log; simpl.
  - by exists log.
  - unfold mbind, stateful_bind.
    destruct (extract_one_enriched self net r log) as [log1 ->].
    destruct (IH log1) as [log2 ->]. by exists log2.
Qed.

(** C8.  [fetch_page_content] never raises and returns [None] or a text
    of at most 3000 characters; an address that does not start with http
    gives [None] without a request, and so does a failed request; with
    content fetching enabled [search_and_extract] returns every result of
    [search], in order, and a result whose fetch gave [None] carries its
    own snippet under full_content. *)
Theorem content_fetch_is_best_effort self net clock url q log :
  (exists content log',
      fetch_page_content self net url log = (Ok content, log') /\
      match content with
      | None => True
      | Some text => String.length text <= 3000
      end) /\
  (startswith url "http" = false ->
   fetch_page_content self net url log = (Ok None, log)) /\
  (forall e, page_text net url = Raise e ->
   exists log', fetch_page_content self net url log = (Ok None, log')) /\
  (exists results log1 log2,
      search self net clock q None log = (Ok results, log1) /\
      search_and_extract self net clock q true log = (Ok (map (enriched net) results), log2) /\
      forall r, In r results -> fetched net (r_url r) = None ->
        r_full_content (enriched net r) = Some (r_snippet r)).
Proof.
  split; [|split; [|split]].
  - destruct (fetch_page_content_fetched self net url log) as [log' H].
    exists (fetched net url), log'. split; [done|].
    unfold fetched.
    destruct (negb (truthy url) || negb (startswith url "http")); [done|].
    destruct (page_text net url); [|done].
    destruct (truthy _); [|done]. apply take_prefix_length.
  - intros H. unfold fetch_page_content, fetch_page_body, eff_try.
    rewrite H. cbn [negb]. by rewrite orb_true_r.
  - intros e He. destruct (fetch_page_content_fetched self net url log) as [log' H].
    exists log'. rewrite H. unfold fetched. rewrite He.
    by destruct (negb (truthy url) || negb (startswith url "http")).
  - destruct (search_yields self net clock q None log) as (results & log1 & Hs & Hlen).
    destruct (extract_all_enriched self net results log1) as [log2 He].
    exists results, log1, log2. split; [done|]. split.
    + unfold search_and_extract, mbind, stateful_bind. rewrite Hs.
      destruct results; [simpl in Hlen; lia|]. exact He.
    + intros r _ Hr. unfold enriched. by rewrite Hr.
Qed.

Lemma content_fetch_is_best_effort_witness :
  fetch_page_content Samples.no_keys Samples.dead_net "ftp://example.org/a" [] = (Ok None, []) /\
  exists log',
    fetch_page_content Samples.no_keys Samples.dead_net "https://example.org/a" [] =
      (Ok None, log').
Proof.
  destruct (content_fetch_is_best_effort
              Samples.no_keys Samples.dead_net Samples.clock "ftp://example.org/a" "rocq" [])
    as (_ & Hscheme & _).
  destruct (content_fetch_is_best_effort
              Samples.no_keys Samples.dead_net Samples.clock "https://example.org/a" "rocq" [])
    as (_ & _ & Hfail & _).
  split.
  - apply Hscheme. reflexivity.
  - apply (Hfail "connection refused"). reflexivity.
Defined.

End WebSearchFacts.

(* ===================================================================== *)
(** * Facts about the router                                             *)
(* ===================================================================== *)

Module RouterFacts.

Import QueryClassifier IntelligentSourceRouter.
Import QueryClassifierFacts.

(** ** The retrieval methods never raise *)

Lemma _retrieve_local_total self q retr :
  exists r, _retrieve_local self q retr = Ok r.
Proof.
  unfold _retrieve_local. destruct retr as [get|]; [|eauto].
  unfold try_except. destruct (get q) as [docs|e]; cbn; [|eauto].
  destruct (negb (nonempty docs)); eauto.
Qed.

Lemma _retrieve_web_total self w q :
  exists r, _retrieve_web self w q = Ok r.
Proof.
  unfold _retrieve_web. destruct (web_search self) as [ws|]; [|eauto].
  unfold try_except.
  destruct (fst (run _)) as [rs|e]; cbn; [|eauto].
  destruct (negb (nonempty rs)); eauto.
Qed.

Lemma _retrieve_hybrid_total self w q retr :
  exists r, _retrieve_hybrid self w q retr = Ok r.
Proof. unfold _retrieve_hybrid, try_except. eauto. Qed.

Lemma dispatch_total self w q retr ds :
  exists r, dispatch self w q retr ds = Ok r.
Proof.
  unfold dispatch.
  destruct (String.eqb ds "local_rag"); [apply _retrieve_local_total|].
  destruct (String.eqb ds "web_search"); [apply _retrieve_web_total|].
  destruct (String.eqb ds "hybrid"); [apply _retrieve_hybrid_total|].
  apply _retrieve_web_total.
Qed.

Lemma routing_decision_total lib self w q has_docs :
  exists routing, routing_decision lib self w q has_docs = Ok routing.
Proof.
  unfold routing_decision. destruct (query_classifier self); [|eauto].
  apply classify_query_total.
Qed.

(** ** The shape of a call of [route_query] *)

(** The outcome of a call whose decision is [routing] and whose
    retrieval returned [r]. *)
Definition merged (q : string) (routing : Routing) (r : gmap string value)
    : gmap string value :=
  r ∪ <["routing" := VRouting routing]> (initial_outcome q).

Lemma get_routing_insert routing (m : gmap string value) :
  get_routing (<["routing" := VRouting routing]> m) = Some routing.
Proof. unfold get_routing. by rewrite lookup_insert_eq. Qed.

Lemma route_query_unfold lib self w q retr has_docs routing r :
  routing_decision lib self w q has_docs = Ok routing ->
  dispatch self w q retr (datasource routing) = Ok r ->
  route_query lib self w q retr has_docs =
    (Ok (merged q routing r),
     with_history self (routing_history self ++ [history_entry w (merged q routing r)])).
Proof.
  intros Hd Hr. unfold route_query, classify_step, retrieve_step.
  unfold mbind, stateful_bind, eff_try, lift, update_outcome, read_outcome,
    _save_routing_history, eff_try, mret, stateful_ret.
  rewrite Hd. cbn [outcome history].
  rewrite get_routing_insert, Hr. reflexivity.
Qed.

(** Every call has that shape. *)
Lemma route_query_shape lib self w q retr has_docs :
  exists routing r,
    routing_decision lib self w q has_docs = Ok routing /\
    dispatch self w q retr (datasource routing) = Ok r /\
    route_query lib self w q retr has_docs =
      (Ok (merged q routing r),
       with_history self (routing_history self ++ [history_entry w (merged q routing r)])).
Proof.
  destruct (routing_decision_total lib self w q has_docs) as [routing Hd].
  destruct (dispatch_total self w q retr (datasource routing)) as [r Hr].
  exists routing, r. eauto using route_query_unfold.
Qed.

(** A retrieval result never carries the keys query and routing, so
    [result.update] leaves them as they were. *)
Ltac other_keys := rewrite ?lookup_insert_ne by done; apply lookup_empty.

Lemma _retrieve_local_keys self q retr r :
  _retrieve_local self q retr = Ok r -> r !! "routing" = None /\ r !! "query" = None.
Proof.
  unfold _retrieve_local. destruct retr as [get|].
  - unfold try_except. destruct (get q) as [docs|e]; cbn.
    + destruct (negb (nonempty docs)); intros [= <-]; split; other_keys.
    + intros [= <-]; split; other_keys.
  - intros [= <-]; split; other_keys.
Qed.

Lemma _retrieve_web_keys self w q r :
  _retrieve_web self w q = Ok r -> r !! "routing" = None /\ r !! "query" = None.
Proof.
  unfold _retrieve_web. destruct (web_search self) as [ws|].
  - unfold try_except. destruct (fst (run _)) as [rs|e]; cbn.
    + destruct (negb (nonempty rs)); intros [= <-]; split; other_keys.
    + intros [= <-]; unfold web_error; split; other_keys.
  - intros [= <-]; split; other_keys.
Qed.

Lemma _retrieve_hybrid_keys self w q retr r :
  _retrieve_hybrid self w q retr = Ok r -> r !! "routing" = None /\ r !! "query" = None.
Proof. unfold _retrieve_hybrid, try_except. intros [= <-]; split; other_keys. Qed.

Lemma dispatch_keys self w q retr ds r :
  dispatch self w q retr ds = Ok r -> r !! "routing" = None /\ r !! "query" = None.
Proof.
  unfold dispatch.
  destruct (String.eqb ds "local_rag"); [apply _retrieve_local_keys|].
  destruct (String.eqb ds "web_search"); [apply _retrieve_web_keys|].
  destruct (String.eqb ds "hybrid"); [apply _retrieve_hybrid_keys|].
  apply _retrieve_web_keys.
Qed.

Lemma merged_routing q routing r :
  r !! "routing" = None -> merged q routing r !! "routing" = Some (VRouting routing).
Proof.
  intros H. unfold merged. rewrite lookup_union_r by done. apply lookup_insert_eq.
Qed.

Lemma merged_query q routing r :
  r !! "query" = None -> merged q routing r !! "query" = Some (VStr q).
Proof.
  intros H. unfold merged, initial_outcome. rewrite lookup_union_r by done.
  rewrite lookup_insert_ne by done. apply lookup_insert_eq.
Qed.

Lemma merged_context q routing r : is_Some (merged q routing r !! "context").
Proof.
  unfold merged, initial_outcome. apply lookup_union_is_Some. right.
  rewrite !lookup_insert_ne by done. rewrite lookup_insert_eq. eauto.
Qed.

Lemma merged_sources q routing r : is_Some (merged q routing r !! "sources").
Proof.
  unfold merged, initial_outcome. apply lookup_union_is_Some. right.
  rewrite !lookup_insert_ne by done. rewrite lookup_insert_eq. eauto.
Qed.

(** The error field of an outcome is that of the retrieval. *)
Lemma merged_error q routing r : merged q routing r !! "error" = r !! "error".
Proof.
  unfold merged, initial_outcome.
  destruct (r !! "error") as [v|] eqn:E.
  - by apply lookup_union_Some_l.
  - apply lookup_union_None. split; [done | other_keys].
Qed.

(** The retrieval methods are chosen by the datasource alone. *)
Lemma dispatch_by_datasource self w q retr ds :
  dispatch self w q retr ds =
    if String.eqb ds "local_rag" then _retrieve_local self q retr
    else if String.eqb ds "hybrid" then _retrieve_hybrid self w q retr
    else _retrieve_web self w q.
Proof.
  unfold dispatch. destruct (String.eqb ds "local_rag"); [done|].
  destruct (String.eqb ds "web_search") eqn:E1; [|done].
  destruct (String.eqb ds "hybrid") eqn:E2; [|done].
  apply String.eqb_eq in E1, E2. congruence.
Qed.

(** ** No uploaded documents *)

Lemma routing_decision_no_docs lib self w q routing :
  routing_decision lib self w q false = Ok routing -> datasource routing = "web_search".
Proof.
  unfold routing_decision. destruct (query_classifier self) as [c|].
  - apply classify_query_no_docs.
  - intros [= <-]. cbn. unfold _fallback_datasource_selection.
    by rewrite !andb_false_r.
Qed.

(** C4.  With no uploaded documents the datasource is web_search on the
    language-model path of the classifier (whenever that path returns),
    on the classifier as a whole, on its keyword fallback, on the keyword
    fallback of the router, and in the outcome of [route_query]. *)
Theorem no_documents_routes_to_web lib c (model : LLM) q self w retr :
  match classify_with_llm lib c model q false with
  | Ok r => datasource r = "web_search"
  | Raise _ => True
  end /\
  (exists r, classify_query lib c model q false = Ok r /\ datasource r = "web_search") /\
  datasource (_fallback_classification q false) = "web_search" /\
  _fallback_datasource_selection false q = "web_search" /\
  (exists out routing,
      fst (route_query lib self w q retr false) = Ok out /\
      out !! "routing" = Some (VRouting routing) /\
      datasource routing = "web_search").
Proof.
  split; [|split; [|split; [|split]]].
  - destruct (classify_with_llm lib c model q false) eqn:E; [|done].
    eauto using classify_with_llm_no_docs.
  - destruct (classify_query_total lib c model q false) as [r Hr].
    exists r. eauto using classify_query_no_docs.
  - reflexivity.
  - unfold _fallback_datasource_selection. by rewrite !andb_false_r.
  - destruct (route_query_shape lib self w q retr false) as (routing & r & Hd & Hr & ->).
    exists (merged q routing r), routing. split; [done|]. split.
    + apply merged_routing. eapply dispatch_keys; eauto.
    + eauto using routing_decision_no_docs.
Qed.

(** ** Failures *)

(** The claim that every internal exception ends in an outcome with a
    populated error field and the default web_search decision. *)
Definition every_exception_is_reported (lib : PyLib) (self : t) (w : World) (q : string)
    (retr : option Retriever) (has_docs : bool) : Prop :=
  ((exists c e, query_classifier self = Some c /\ llm w q (context_info has_docs) = Raise e) \/
   (exists get e, retr = Some get /\ get q = Raise e)) ->
  exists out e,
    fst (route_query lib self w q retr has_docs) = Ok out /\
    out !! "error" = Some (VStr e) /\ e <> "" /\
    out !! "routing" = Some (VRouting default_routing).

(** Two calls refute it.  In the first the language model fails, the
    keyword fallback of the classifier chooses local_rag and the
    retriever answers: the outcome has no error field.  In the second the
    language model answers local_rag and the retriever fails: the error
    is recorded, but the decision in the outcome is the one of the
    classifier, not the default one. *)
Lemma every_exception_is_reported_counterexample :
  ~ every_exception_is_reported Samples.lib Samples.router Samples.failing_world
      "Summarize my document" (Some Samples.retriever) true /\
  ~ every_exception_is_reported Samples.lib Samples.router Samples.answering_world
      "Summarize my document" (Some Samples.failing_retriever) true.
Proof.
  split.
  - intros H. destruct H as (out & e & Hout & Herr & _).
    + left. exists Samples.classifier, "connection refused". split; reflexivity.
    + destruct (route_query_shape Samples.lib Samples.router Samples.failing_world
                  "Summarize my document" (Some Samples.retriever) true)
        as (routing & r & Hd & Hr & Heq).
      rewrite Heq in Hout. cbn [fst] in Hout. injection Hout as <-.
      assert (Hrouting : routing = _fallback_classification "Summarize my document" true).
      { vm_compute in Hd. injection Hd as <-. vm_compute. reflexivity. }
      subst routing.
      assert (Hds : datasource (_fallback_classification "Summarize my document" true)
                    = "local_rag") by (vm_compute; reflexivity).
      rewrite Hds in Hr. unfold dispatch, _retrieve_local, Samples.retriever in Hr.
      cbn [String.eqb Ascii.eqb Bool.eqb try_except mbind result_bind negb nonempty] in Hr.
      injection Hr as <-.
      unfold merged, initial_outcome in Herr.
      rewrite lookup_union_r in Herr by other_keys.
      rewrite !lookup_insert_ne in Herr by done.
      rewrite lookup_empty in Herr. discriminate.
  - intros H. destruct H as (out & e & Hout & _ & _ & Hrouting).
    + right. exists Samples.failing_retriever, "index unavailable". split; reflexivity.
    + destruct (route_query_shape Samples.lib Samples.router Samples.answering_world
                  "Summarize my document" (Some Samples.failing_retriever) true)
        as (routing & r & Hd & Hr & Heq).
      rewrite Heq in Hout. cbn [fst] in Hout. injection Hout as <-.
      rewrite (merged_routing _ _ _ (proj1 (dispatch_keys _ _ _ _ _ _ Hr))) in Hrouting.
      assert (Hdef : routing = default_routing) by congruence.
      rewrite Hdef in Hd. vm_compute in Hd. discriminate Hd.
Qed.

(** C2.  [route_query] never raises: it returns an outcome with the keys
    query, routing, context and sources.  The decision in the outcome is
    always the one returned by [classify_query] (without a classifier,
    the one of the keyword fallback of the router); no failure resets it.
    The rest of the outcome is the result of the retrieval method that
    the datasource names, laid over the initial outcome; in particular
    the error field of the outcome is the error field of that result and
    nothing else.  A failure of the language model is absorbed by the
    classifier, whose keyword fallback gives the decision, and records no
    error: when the retriever then answers in local_rag mode there is no
    error field.  A failure of the local retriever in local_rag mode is
    recorded: the error field is the message of the exception and the
    context describes the failure.  In hybrid mode a failure of the
    local retriever is swallowed and sets no error field. *)
Theorem route_query_degrades lib self w q retr has_docs :
  exists out routing r,
    fst (route_query lib self w q retr has_docs) = Ok out /\
    out !! "query" = Some (VStr q) /\
    out !! "routing" = Some (VRouting routing) /\
    is_Some (out !! "context") /\
    is_Some (out !! "sources") /\
    match query_classifier self with
    | Some c => classify_query lib c (llm w) q has_docs = Ok routing
    | None =>
        routing = {| datasource := _fallback_datasource_selection has_docs q;
                     reasoning := PStr "Default routing (classifier unavailable)";
                     confidence := 0.5;
                     rquery := None |}
    end /\
    (if String.eqb (datasource routing) "local_rag" then _retrieve_local self q retr
     else if String.eqb (datasource routing) "hybrid" then _retrieve_hybrid self w q retr
     else _retrieve_web self w q) = Ok r /\
    out = r ∪ <["routing" := VRouting routing]> (initial_outcome q) /\
    out !! "error" = r !! "error" /\
    (forall c e, query_classifier self = Some c ->
       llm w q (context_info has_docs) = Raise e ->
       routing = _fallback_classification q has_docs) /\
    (forall get docs, datasource routing = "local_rag" ->
       retr = Some get -> get q = Ok docs ->
       out !! "error" = None) /\
    (forall get e, datasource routing = "local_rag" ->
       retr = Some get -> get q = Raise e ->
       out !! "error" = Some (VStr e) /\
       out !! "context" = Some (VStr ("Error retrieving local documents: " +:+ e))) /\
    (forall get e, datasource routing = "hybrid" ->
       retr = Some get -> get q = Raise e ->
       out !! "error" = None).
Proof.
  destruct (route_query_shape lib self w q retr has_docs) as (routing & r & Hd & Hr & ->).
  destruct (dispatch_keys _ _ _ _ _ _ Hr) as [Hrouting Hquery].
  exists (merged q routing r), routing, r. cbn [fst].
  split; [done|]. split; [by apply merged_query|]. split; [by apply merged_routing|].
  split; [apply merged_context|]. split; [apply merged_sources|].
  split.
  { unfold routing_decision in Hd. destruct (query_classifier self); [done|].
    by injection Hd as <-. }
  split; [by rewrite <- dispatch_by_datasource|].
  split; [reflexivity|]. split; [apply merged_error|].
  split; [|split; [|split]].
  - intros c e Hc Hllm. unfold routing_decision in Hd. rewrite Hc in Hd.
    unfold classify_query, classify_with_llm in Hd.
    rewrite (PyFacts.bind_raise _ _ _ Hllm) in Hd. by injection Hd.
  - intros get docs Hds -> Hget. rewrite merged_error.
    unfold dispatch in Hr. rewrite Hds in Hr.
    cbn [String.eqb Ascii.eqb Bool.eqb] in Hr. unfold _retrieve_local, try_except in Hr.
    rewrite Hget in Hr. cbn [mbind result_bind] in Hr.
    destruct (negb (nonempty docs)); injection Hr as <-; other_keys.
  - intros get e Hds -> Hget. unfold dispatch in Hr. rewrite Hds in Hr. cbn in Hr.
    rewrite Hget in Hr. cbn in Hr. injection Hr as <-.
    unfold merged. split; apply lookup_union_Some_l.
    + rewrite !lookup_insert_ne by done. apply lookup_insert_eq.
    + apply lookup_insert_eq.
  - intros get e Hds -> Hget. unfold dispatch in Hr. rewrite Hds in Hr. cbn in Hr.
    injection Hr as <-. unfold merged, initial_outcome.
    apply lookup_union_None. split; other_keys.
Qed.

Lemma route_query_degrades_witness :
  (exists out,
     fst (route_query Samples.lib Samples.router Samples.failing_world
            "Summarize my document" (Some Samples.failing_retriever) true) = Ok out /\
     out !! "routing" =
       Some (VRouting (_fallback_classification "Summarize my document" true)) /\
     out !! "error" = Some (VStr "index unavailable")) /\
  (exists out,
     fst (route_query Samples.lib Samples.router Samples.failing_world
            "Summarize my document" (Some Samples.retriever) true) = Ok out /\
     out !! "routing" =
       Some (VRouting (_fallback_classification "Summarize my document" true)) /\
     out !! "error" = None).
Proof.
  split.
  - destruct (route_query_degrades Samples.lib Samples.router Samples.failing_world
                "Summarize my document" (Some Samples.failing_retriever) true)
      as (out & routing & r & Hout & _ & Hrouting & _ & _ & _ & _ & _ & _ & Hllm & _ & Hlocal & _).
    exists out. split; [exact Hout|].
    specialize (Hllm Samples.classifier "connection refused" eq_refl eq_refl).
    subst routing. split; [exact Hrouting|].
    apply (Hlocal Samples.failing_retriever "index unavailable" eq_refl eq_refl eq_refl).
  - destruct (route_query_degrades Samples.lib Samples.router Samples.failing_world
                "Summarize my document" (Some Samples.retriever) true)
      as (out & routing & r & Hout & _ & Hrouting & _ & _ & _ & _ & _ & _ & Hllm & Hanswer & _).
    exists out. split; [exact Hout|].
    specialize (Hllm Samples.classifier "connection refused" eq_refl eq_refl).
    subst routing. split; [exact Hrouting|].
    apply (Hanswer Samples.retriever [Samples.document] eq_refl eq_refl eq_refl).
Defined.

(** ** One history entry per call *)

(** C3.  Every call of [route_query] returns an outcome and appends
    exactly one entry to the routing history; the entry records the error
    field of the outcome, so a call that ends in an error is recorded
    like any other. *)
Theorem route_query_appends_one_entry lib self w q retr has_docs :
  exists out,
    fst (route_query lib self w q retr has_docs) = Ok out /\
    routing_history (snd (route_query lib self w q retr has_docs)) =
      routing_history self ++ [history_entry w out] /\
    h_error (history_entry w out) = get_error out.
Proof.
  destruct (route_query_shape lib self w q retr has_docs) as (routing & r & _ & _ & ->).
  by exists (merged q routing r).
Qed.

Lemma after_call_length lib self c :
  length (routing_history (after_call lib self c)) = S (length (routing_history self)).
Proof.
  unfold after_call.
  destruct (route_query_shape lib self (c_world c) (c_query c) (c_retriever c) (c_has_docs c))
    as (routing & r & _ & _ & ->).
  cbn. rewrite length_app. simpl. lia.
Qed.

(** After K calls the history has K more entries. *)
Lemma after_calls_length lib calls : forall self,
  length (routing_history (after_calls lib self calls)) =
    length (routing_history self) + length calls.
Proof.
  induction calls as [|c calls IH]; intros self; simpl; [lia|].
  unfold after_calls in *. simpl. rewrite IH, after_call_length. lia.
Qed.

End RouterFacts.

(* ===================================================================== *)
(** * Facts about the statistics                                         *)
(* ===================================================================== *)

Module StatsFacts.

Import QueryClassifier IntelligentSourceRouter.

(** The sum of the counts of a counting dictionary. *)
Definition sum_counts (m : gmap string nat) : nat :=
  map_fold (fun _ n acc => n + acc) 0 m.

Lemma sum_counts_insert_fresh k n (m : gmap string nat) :
  m !! k = None -> sum_counts (<[k := n]> m) = n + sum_counts m.
Proof. intros H. unfold sum_counts. apply map_fold_insert_L; [intros; lia | done]. Qed.

Lemma sum_counts_delete k n (m : gmap string nat) :
  m !! k = Some n -> sum_counts m = n + sum_counts (delete k m).
Proof.
  intros H. unfold sum_counts.
  apply (map_fold_delete_L (fun _ n acc => n + acc)); [intros; lia | done].
Qed.

Lemma sum_counts_bump k (m : gmap string nat) : sum_counts (bump k m) = S (sum_counts m).
Proof.
  unfold bump. destruct (m !! k) as [n|] eqn:E; cbn [default].
  - rewrite <- insert_delete_eq.
    rewrite sum_counts_insert_fresh by apply lookup_delete_eq.
    rewrite (sum_counts_delete k n m E). unfold id. lia.
  - rewrite sum_counts_insert_fresh by done. unfold id. lia.
Qed.

(** The errors of a history: the entries whose error field is a
    non-empty text. *)
Definition errors (h : list HistoryEntry) : list HistoryEntry :=
  List.filter (fun entry => truthy_opt (h_error entry)) h.

(** The sum of the loop, from a starting value. *)
Definition float_sum (start : float) (l : list float) : float :=
  fold_left PrimFloat.add l start.

Lemma tally_from acc h :
  let final := fold_left tally_entry h acc in
  sum_counts (by_source final) = sum_counts (by_source acc) + length h /\
  sum_counts (by_retrieval_type final) = sum_counts (by_retrieval_type acc) + length h /\
  total_confidence final = float_sum (total_confidence acc) (map h_confidence h) /\
  error_count final = error_count acc + length (errors h).
Proof.
  revert acc. induction h as [|entry h IH]; intros acc; cbn [fold_left].
  - cbn. split; [lia|split; [lia|split; [done|lia]]].
  - destruct (IH (tally_entry acc entry)) as (H1 & H2 & H3 & H4).
    cbn zeta. rewrite H1, H2, H3, H4. cbn [tally_entry by_source by_retrieval_type
      total_confidence error_count]. rewrite !sum_counts_bump.
    cbn [length map float_sum fold_left errors List.filter].
    split; [lia|split; [lia|split; [done|]]].
    destruct (truthy_opt (h_error entry)); cbn [length]; fold (errors h); lia.
Qed.

Lemma sum_counts_empty : sum_counts ∅ = 0.
Proof. unfold sum_counts. apply map_fold_empty. Qed.

Lemma errors_length h : length (errors h) <= length h.
Proof. unfold errors. apply filter_length_le. Qed.

(** The statistics of a router whose history is not empty. *)
Lemma stats_of_history self :
  nonempty (routing_history self) = true ->
  let h := routing_history self in
  exists stats sources types,
    get_routing_stats self = (Ok stats, self) /\
    stats !! "total_queries" = Some (SInt (length h)) /\
    stats !! "by_source" = Some (SCounts sources) /\ sum_counts sources = length h /\
    stats !! "by_retrieval_type" = Some (SCounts types) /\ sum_counts types = length h /\
    stats !! "avg_confidence" =
      Some (SFloat (float_sum 0 (map h_confidence h) / float_of_nat (length h))) /\
    stats !! "error_count" = Some (SInt (length (errors h))) /\
    stats !! "success_rate" =
      Some (SFloat (float_of_nat (length h - length (errors h)) / float_of_nat (length h))).
Proof.
  intros Hne. cbn zeta. unfold get_routing_stats. cbn zeta.
  set (h := routing_history self) in *. rewrite Hne. cbn [negb].
  destruct (tally_from empty_tally h) as (H1 & H2 & H3 & H4).
  cbn zeta in *. fold (tally h) in *.
  cbn [empty_tally by_source by_retrieval_type total_confidence error_count] in *.
  rewrite sum_counts_empty in *.
  assert (Hpos : (0 <? length h)%nat = true).
  { apply Nat.ltb_lt. destruct h; [discriminate Hne | simpl; lia]. }
  rewrite Hpos.
  eexists _, (by_source (tally h)), (by_retrieval_type (tally h)).
  split; [reflexivity|].
  split; [apply lookup_insert_eq|].
  split; [rewrite lookup_insert_ne by done; apply lookup_insert_eq|].
  split; [lia|].
  split; [rewrite !lookup_insert_ne by done; apply lookup_insert_eq|].
  split; [lia|].
  split; [rewrite !lookup_insert_ne by done; rewrite lookup_insert_eq, H3; reflexivity|].
  split; [rewrite !lookup_insert_ne by done; rewrite lookup_insert_eq, H4; reflexivity|].
  rewrite !lookup_insert_ne by done. rewrite lookup_insert_eq, H4. reflexivity.
Qed.

(** C6, on a router that has served no call.  The statistics of a fresh
    router have a zero total, empty counts, a zero average confidence and
    a zero error count, but no success_rate key. *)
Theorem fresh_router_stats_lack_success_rate classifier enable ws fetch :
  let fresh := init classifier enable ws fetch in
  exists stats,
    get_routing_stats fresh = (Ok stats, fresh) /\
    stats !! "total_queries" = Some (SInt 0) /\
    stats !! "by_source" = Some (SCounts ∅) /\
    stats !! "by_retrieval_type" = Some (SCounts ∅) /\
    stats !! "avg_confidence" = Some (SFloat 0) /\
    stats !! "error_count" = Some (SInt 0) /\
    stats !! "success_rate" = None.
Proof.
  intros fresh. eexists. split; [reflexivity|].
  split; [apply lookup_insert_eq|].
  split; [rewrite lookup_insert_ne by done; apply lookup_insert_eq|].
  split; [rewrite !lookup_insert_ne by done; apply lookup_insert_eq|].
  split; [rewrite !lookup_insert_ne by done; apply lookup_insert_eq|].
  split; [rewrite !lookup_insert_ne by done; apply lookup_insert_eq|].
  rewrite !lookup_insert_ne by done. apply lookup_empty.
Qed.

(** C9.  [get_routing_stats] leaves the router, and so its history, as it
    was, and a second call returns the same statistics as the first. *)
Theorem get_routing_stats_idempotent self :
  exists stats,
    get_routing_stats self = (Ok stats, self) /\
    get_routing_stats (snd (get_routing_stats self)) = (Ok stats, self) /\
    routing_history (snd (get_routing_stats self)) = routing_history self.
Proof.
  unfold get_routing_stats.
  destruct (negb (nonempty (routing_history self))) eqn:E; eexists; cbn [snd];
    rewrite ?E; repeat split.
Qed.

(** C10.  When the history is not empty the statistics hold the whole
    history under the key routing_history; when it is empty the key is
    absent. *)
Theorem stats_embed_history self :
  exists stats,
    get_routing_stats self = (Ok stats, self) /\
    stats !! "routing_history" =
      if nonempty (routing_history self)
      then Some (SHistory (routing_history self))
      else None.
Proof.
  unfold get_routing_stats.
  destruct (nonempty (routing_history self)); cbn [negb]; eexists; (split; [reflexivity|]).
  - rewrite !lookup_insert_ne by done. apply lookup_insert_eq.
  - rewrite !lookup_insert_ne by done. apply lookup_empty.
Qed.

End StatsFacts.

(* ===================================================================== *)
(** * Further facts about the classifier                                 *)
(* ===================================================================== *)

Module QueryClassifierMore.

Import QueryClassifier QueryClassifierFacts.

(** The payload after validation and the two overrides. *)
Definition final_payload (has_docs : bool) (q : string) (d : gmap string pyval)
    : gmap string pyval :=
  override_general_knowledge has_docs q
    (override_no_documents has_docs (validate_datasource d)).

Lemma classify_with_llm_payload lib self llm q has_docs content d :
  llm q (context_info has_docs) = Ok content ->
  _parse_json_response lib content = Ok (PDict d) ->
  classify_with_llm lib self llm q has_docs = decision_of lib q (final_payload has_docs q d).
Proof.
  intros Hllm Hparse. unfold classify_with_llm.
  rewrite (bind_ok _ _ _ Hllm), (bind_ok _ _ _ Hparse).
  by rewrite (bind_ok (as_dict (PDict d)) _ d eq_refl).
Qed.

Lemma override_no_documents_valid has_docs d s :
  d !! "datasource" = Some (PStr s) -> In s valid_sources ->
  exists s', override_no_documents has_docs d !! "datasource" = Some (PStr s') /\
             In s' valid_sources.
Proof.
  intros Hs Hin. unfold override_no_documents.
  destruct (negb has_docs && datasource_in d ["local_rag"; "hybrid"]); [|eauto].
  exists "web_search". rewrite !lookup_insert_ne by done. rewrite lookup_insert_eq.
  split; [done|]. simpl; tauto.
Qed.

Lemma override_general_knowledge_valid has_docs q d s :
  d !! "datasource" = Some (PStr s) -> In s valid_sources ->
  exists s', override_general_knowledge has_docs q d !! "datasource" = Some (PStr s') /\
             In s' valid_sources.
Proof.
  intros Hs Hin. unfold override_general_knowledge.
  destruct (has_docs && datasource_is d "local_rag"); [|eauto].
  destruct (_is_general_knowledge q); [|eauto].
  exists "web_search". rewrite !lookup_insert_ne by done. rewrite lookup_insert_eq.
  split; [done|]. simpl; tauto.
Qed.

Lemma final_payload_valid has_docs q d :
  exists s, final_payload has_docs q d !! "datasource" = Some (PStr s) /\ In s valid_sources.
Proof.
  destruct (validate_datasource_valid d) as (s0 & H0 & Hin0).
  destruct (override_no_documents_valid has_docs _ _ H0 Hin0) as (s1 & H1 & Hin1).
  exact (override_general_knowledge_valid has_docs q _ _ H1 Hin1).
Qed.

Lemma fallback_valid q has_docs :
  In (datasource (_fallback_classification q has_docs)) valid_sources /\
  rquery (_fallback_classification q has_docs) = Some q.
Proof.
  unfold _fallback_classification.
  destruct (negb has_docs); [simpl; tauto|].
  destruct (any_in document_keywords (lower q) && has_docs).
  - destruct (any_in web_keywords (lower q)); simpl; tauto.
  - destruct (any_in web_keywords (lower q) || _is_general_knowledge q); simpl; tauto.
Qed.

Lemma classify_with_llm_valid lib self llm q has_docs r :
  classify_with_llm lib self llm q has_docs = Ok r ->
  In (datasource r) valid_sources /\ rquery r = Some q.
Proof.
  intros E. unfold classify_with_llm in E.
  apply bind_ok_inv in E as (content & _ & E).
  apply bind_ok_inv in E as (parsed & _ & E).
  apply bind_ok_inv in E as (d & _ & E).
  fold (final_payload has_docs q d) in E.
  destruct (final_payload_valid has_docs q d) as (s & Hs & Hin).
  rewrite (decision_of_datasource _ _ _ _ _ Hs E). split; [done|].
  unfold decision_of in E. apply bind_ok_inv in E as (cf & _ & E). by injection E as <-.
Qed.

(** The decision of [classify_query] always names one of the three valid
    sources and echoes the query, whatever the language model answers. *)
Theorem classify_query_valid_source lib self llm q has_docs :
  exists r,
    classify_query lib self llm q has_docs = Ok r /\
    In (datasource r) valid_sources /\
    rquery r = Some q.
Proof.
  unfold classify_query, try_except.
  destruct (classify_with_llm lib self llm q has_docs) as [r|e] eqn:E.
  - exists r. split; [done|]. eauto using classify_with_llm_valid.
  - eexists. split; [done|]. apply fallback_valid.
Qed.

(** Every failure inside the try block of [classify_query] ends in the
    keyword fallback: an exception of the language model, a response that
    cannot be parsed, a parsed value that is not a dictionary, and a
    confidence that [float] rejects. *)
Theorem classify_query_degrades_to_keywords lib self llm q has_docs :
  (forall e, llm q (context_info has_docs) = Raise e ->
     classify_query lib self llm q has_docs = Ok (_fallback_classification q has_docs)) /\
  (forall content e, llm q (context_info has_docs) = Ok content ->
     _parse_json_response lib content = Raise e ->
     classify_query lib self llm q has_docs = Ok (_fallback_classification q has_docs)) /\
  (forall content v, llm q (context_info has_docs) = Ok content ->
     _parse_json_response lib content = Ok v ->
     (forall d, v <> PDict d) ->
     classify_query lib self llm q has_docs = Ok (_fallback_classification q has_docs)) /\
  (forall content d v e, llm q (context_info has_docs) = Ok content ->
     _parse_json_response lib content = Ok (PDict d) ->
     final_payload has_docs q d !! "confidence" = Some v ->
     py_float lib v = Raise e ->
     classify_query lib self llm q has_docs = Ok (_fallback_classification q has_docs)).
Proof.
  unfold classify_query. split; [|split; [|split]].
  - intros e H. unfold classify_with_llm. by rewrite (bind_raise _ _ _ H).
  - intros content e H1 H2. unfold classify_with_llm.
    by rewrite (bind_ok _ _ _ H1), (bind_raise _ _ _ H2).
  - intros content v H1 H2 Hv. unfold classify_with_llm.
    rewrite (bind_ok _ _ _ H1), (bind_ok _ _ _ H2).
    destruct v; try done. by destruct (Hv d).
  - intros content d v e H1 H2 Hc Hf.
    rewrite (classify_with_llm_payload _ _ _ _ _ _ _ H1 H2).
    unfold decision_of. rewrite Hc. cbn [default]. unfold id.
    by rewrite (bind_raise _ _ _ Hf).
Qed.

Lemma classify_query_degrades_to_keywords_witness :
  let q := "Summarize my document" in
  classify_query Samples.lib Samples.classifier Samples.failing_llm q true =
    Ok (_fallback_classification q true) /\
  classify_query (Samples.sniffing (Some "1.2.3")) Samples.classifier Samples.answering_llm q true =
    Ok (_fallback_classification q true) /\
  classify_query (Samples.decoding (PList [])) Samples.classifier Samples.answering_llm q true =
    Ok (_fallback_classification q true) /\
  classify_query (Samples.decoding (PDict Samples.null_confidence_payload))
    Samples.classifier Samples.answering_llm q true =
    Ok (_fallback_classification q true).
Proof.
  intros q. split; [|split; [|split]].
  - apply (classify_query_degrades_to_keywords
             Samples.lib Samples.classifier Samples.failing_llm q true) with "connection refused".
    reflexivity.
  - apply (classify_query_degrades_to_keywords
             (Samples.sniffing (Some "1.2.3")) Samples.classifier Samples.answering_llm q true)
      with "payload" "could not convert string to float"; reflexivity.
  - apply (classify_query_degrades_to_keywords
             (Samples.decoding (PList [])) Samples.classifier Samples.answering_llm q true)
      with "payload" (PList []); [reflexivity | reflexivity | discriminate].
  - apply (classify_query_degrades_to_keywords
             (Samples.decoding (PDict Samples.null_confidence_payload))
             Samples.classifier Samples.answering_llm q true)
      with "payload" Samples.null_confidence_payload PNone
           "float() argument must be a string or a real number";
      [reflexivity | reflexivity | vm_compute; reflexivity | reflexivity].
Defined.

(** A datasource outside the three valid ones (or none at all) is
    coerced to web_search; the reasoning and the confidence of the payload
    are kept, with their defaults. *)
Theorem unknown_datasource_becomes_web lib self llm q has_docs content d cf :
  llm q (context_info has_docs) = Ok content ->
  _parse_json_response lib content = Ok (PDict d) ->
  datasource_in d valid_sources = false ->
  py_float lib (default (PFloat 0.7) (d !! "confidence")) = Ok cf ->
  classify_query lib self llm q has_docs =
    Ok {| datasource := "web_search";
          reasoning := default (PStr "Default routing") (d !! "reasoning");
          confidence := cf;
          rquery := Some q |}.
Proof.
  intros Hllm Hparse Hinvalid Hcf. unfold classify_query.
  rewrite (classify_with_llm_payload _ _ _ _ _ _ _ Hllm Hparse).
  unfold final_payload, validate_datasource. rewrite Hinvalid. cbn [negb].
  set (d1 := <["datasource" := PStr "web_search"]> d).
  assert (H1 : override_no_documents has_docs d1 = d1).
  { unfold override_no_documents, datasource_in, datasource_is, d1.
    cbn [existsb]. rewrite lookup_insert_eq. cbn. by rewrite andb_false_r. }
  assert (H2 : override_general_knowledge has_docs q d1 = d1).
  { unfold override_general_knowledge, datasource_is, d1.
    rewrite lookup_insert_eq. cbn. by rewrite andb_false_r. }
  rewrite H1, H2. unfold decision_of, d1.
  rewrite (lookup_insert_ne _ "datasource" "confidence") by done.
  rewrite (bind_ok _ _ _ Hcf).
  rewrite lookup_insert_eq, (lookup_insert_ne _ "datasource" "reasoning") by done.
  reflexivity.
Qed.

Lemma unknown_datasource_becomes_web_witness :
  classify_query (Samples.decoding (PDict Samples.unknown_source_payload))
    Samples.classifier Samples.answering_llm "Where is the data?" true =
    Ok {| datasource := "web_search";
          reasoning := PStr "Look it up in the database";
          confidence := 0.7;
          rquery := Some "Where is the data?" |}.
Proof.
  apply (unknown_datasource_becomes_web
           (Samples.decoding (PDict Samples.unknown_source_payload))
           Samples.classifier Samples.answering_llm "Where is the data?" true
           "payload" Samples.unknown_source_payload 0.7);
    vm_compute; reflexivity.
Defined.

(** With uploaded documents a valid decision of the language model is
    kept, with its reasoning and confidence, unless it is local_rag on a
    general knowledge question. *)
Theorem decision_kept_with_documents lib self llm q content d s cf :
  llm q (context_info true) = Ok content ->
  _parse_json_response lib content = Ok (PDict d) ->
  d !! "datasource" = Some (PStr s) ->
  In s valid_sources ->
  (s = "local_rag" -> _is_general_knowledge q = false) ->
  py_float lib (default (PFloat 0.7) (d !! "confidence")) = Ok cf ->
  classify_query lib self llm q true =
    Ok {| datasource := s;
          reasoning := default (PStr "Default routing") (d !! "reasoning");
          confidence := cf;
          rquery := Some q |}.
Proof.
  intros Hllm Hparse Hs Hin Hgk Hcf. unfold classify_query.
  rewrite (classify_with_llm_payload _ _ _ _ _ _ _ Hllm Hparse).
  unfold final_payload, validate_datasource.
  assert (Hvalid : datasource_in d valid_sources = true)
    by (apply datasource_in_spec; eauto).
  rewrite Hvalid. cbn [negb]. rewrite override_no_documents_with_docs.
  assert (H2 : override_general_knowledge true q d = d).
  { unfold override_general_knowledge, datasource_is. rewrite Hs. cbn [andb].
    destruct (String.eqb s "local_rag") eqn:E; [|done].
    apply String.eqb_eq in E. by rewrite (Hgk E). }
  rewrite H2. unfold decision_of. rewrite (bind_ok _ _ _ Hcf), Hs. reflexivity.
Qed.

Lemma decision_kept_with_documents_witness :
  classify_query (Samples.decoding (PDict Samples.hybrid_payload))
    Samples.classifier Samples.answering_llm "Compare my document with the news" true =
    Ok {| datasource := "hybrid";
          reasoning := PStr "Default routing";
          confidence := 1;
          rquery := Some "Compare my document with the news" |}.
Proof.
  apply (decision_kept_with_documents
           (Samples.decoding (PDict Samples.hybrid_payload))
           Samples.classifier Samples.answering_llm "Compare my document with the news"
           "payload" Samples.hybrid_payload "hybrid" 1);
    try (vm_compute; reflexivity); try (simpl; tauto); try discriminate.
Defined.

(** The general knowledge predicate is true exactly when the query holds
    no document indicator: matching one of the general knowledge patterns
    never changes its answer. *)
Theorem general_knowledge_ignores_patterns q :
  _is_general_knowledge q = negb (any_in document_indicators (lower q)).
Proof.
  unfold _is_general_knowledge.
  destruct (any_in document_indicators (lower q)); [done|].
  by destruct (any_in general_knowledge_patterns (lower q)).
Qed.

(** The last branch of the keyword fallback, the one that answers
    web_search by default with confidence 0.7, is taken only with
    uploaded documents and a query that holds a document indicator but
    neither an explicit document keyword nor a web keyword. *)
Theorem fallback_default_branch q has_docs :
  reasoning (_fallback_classification q has_docs) =
    PStr "General query - using web search by default" ->
  has_docs = true /\
  any_in document_indicators (lower q) = true /\
  any_in document_keywords (lower q) = false /\
  any_in web_keywords (lower q) = false.
Proof.
  unfold _fallback_classification, _is_general_knowledge.
  destruct has_docs; cbn [negb]; [|discriminate].
  destruct (any_in document_keywords (lower q)); cbn [andb].
  - destruct (any_in web_keywords (lower q)); discriminate.
  - destruct (any_in web_keywords (lower q)); cbn [orb]; [discriminate|].
    destruct (any_in document_indicators (lower q)); [done|].
    destruct (any_in general_knowledge_patterns (lower q)); discriminate.
Qed.

Lemma fallback_default_branch_witness :
  any_in document_indicators (lower "See the attachment") = true /\
  any_in document_keywords (lower "See the attachment") = false.
Proof.
  destruct (fallback_default_branch "See the attachment" true) as (_ & H1 & H2 & _).
  - vm_compute. reflexivity.
  - split; [exact H1 | exact H2].
Defined.

(** ** Letter case *)

(** [s.upper()] on the ASCII letters. *)
Fixpoint upper (s : string) : string :=
  match s with
  | EmptyString => EmptyString
  | String c t => String (upper_char c) (upper t)
  end.

Lemma lower_upper_char c : lower_char (upper_char c) = lower_char c.
Proof. destruct c as [[] [] [] [] [] [] [] []]; reflexivity. Qed.

Lemma lower_lower_char c : lower_char (lower_char c) = lower_char c.
Proof. destruct c as [[] [] [] [] [] [] [] []]; reflexivity. Qed.

Lemma lower_upper s : lower (upper s) = lower s.
Proof. induction s as [|c s IH]; simpl; [done|]. by rewrite lower_upper_char, IH. Qed.

Lemma lower_idempotent s : lower (lower s) = lower s.
Proof. induction s as [|c s IH]; simpl; [done|]. by rewrite lower_lower_char, IH. Qed.

(** Two queries with the same lower-case form are classified alike by
    the keyword predicates. *)
Lemma same_lower_same_answer q q' has_docs :
  lower q = lower q' ->
  _is_general_knowledge q = _is_general_knowledge q' /\
  datasource (_fallback_classification q has_docs) =
    datasource (_fallback_classification q' has_docs) /\
  reasoning (_fallback_classification q has_docs) =
    reasoning (_fallback_classification q' has_docs) /\
  confidence (_fallback_classification q has_docs) =
    confidence (_fallback_classification q' has_docs) /\
  IntelligentSourceRouter._fallback_datasource_selection has_docs q =
    IntelligentSourceRouter._fallback_datasource_selection has_docs q'.
Proof.
  intros H.
  assert (Hgk : _is_general_knowledge q = _is_general_knowledge q')
    by (unfold _is_general_knowledge; by rewrite H).
  split; [done|].
  assert (Hsame : forall {A} (f : Routing -> A),
            (forall r r', datasource r = datasource r' -> reasoning r = reasoning r' ->
                          confidence r = confidence r' -> f r = f r') ->
            f (_fallback_classification q has_docs) = f (_fallback_classification q' has_docs)).
  { intros A f Hf. apply Hf; unfold _fallback_classification; rewrite H, Hgk;
      destruct (negb has_docs); try done;
      destruct (any_in document_keywords (lower q') && has_docs);
      destruct (any_in web_keywords (lower q')); try done;
      cbn [orb]; by destruct (_is_general_knowledge q'). }
  split; [apply (Hsame _ datasource); auto|].
  split; [apply (Hsame _ reasoning); auto|].
  split; [apply (Hsame _ confidence); auto|].
  unfold IntelligentSourceRouter._fallback_datasource_selection. by rewrite H.
Qed.

(** The keyword predicates do not see the case of the letters: a query
    and its upper-case form get the same answer from the general
    knowledge predicate, the same datasource, reasoning and confidence
    from the keyword fallback of the classifier, and the same datasource
    from the keyword fallback of the router. *)
Theorem keyword_matching_ignores_case q has_docs :
  _is_general_knowledge (upper q) = _is_general_knowledge q /\
  datasource (_fallback_classification (upper q) has_docs) =
    datasource (_fallback_classification q has_docs) /\
  reasoning (_fallback_classification (upper q) has_docs) =
    reasoning (_fallback_classification q has_docs) /\
  confidence (_fallback_classification (upper q) has_docs) =
    confidence (_fallback_classification q has_docs) /\
  IntelligentSourceRouter._fallback_datasource_selection has_docs (upper q) =
    IntelligentSourceRouter._fallback_datasource_selection has_docs q.
Proof. apply same_lower_same_answer, lower_upper. Qed.

(** ** The parser of the classifier's response *)



End QueryClassifierMore.

(* ===================================================================== *)
(** * Further facts about the web search                                 *)
(* ===================================================================== *)

Module WebSearchMore.

Import WebSearchEnhanced WebSearchFacts.

(** ** Replacing a character *)

Lemma prefix_char c d t :
  String.prefix (String c "") (String d t) = if ascii_dec c d then true else false.
Proof. simpl. destruct (ascii_dec c d); [by destruct t | done]. Qed.

Lemma contains_char_cons c d t :
  contains (String c "") (String d t) =
    (if ascii_dec c d then true else false) || contains (String c "") t.
Proof. cbn [contains]. by rewrite prefix_char. Qed.

Lemma contains_char_app c s t :
  contains (String c "") (s +:+ t) = contains (String c "") s || contains (String c "") t.
Proof.
  induction s as [|d s IH].
  - simpl. by destruct t.
  - change (String d s +:+ t) with (String d (s +:+ t)).
    rewrite !contains_char_cons, IH. by rewrite orb_assoc.
Qed.

(** After [s.replace(c, new)], with [c] one character that [new] does not
    hold, the text holds no [c]. *)
Lemma replace_char_gone c new s :
  contains (String c "") new = false ->
  contains (String c "") (replace (String c "") new s) = false.
Proof.
  intros Hnew. unfold replace. induction s as [|d s IH]; [done|].
  cbn [replace_from]. rewrite prefix_char.
  destruct (ascii_dec c d) as [->|Hne].
  - cbn [String.length Nat.sub]. rewrite contains_char_app, Hnew. exact IH.
  - rewrite contains_char_cons. destruct (ascii_dec c d); [done|]. exact IH.
Qed.

(** ** The providers *)

(** The address of a Wikipedia result holds no space, and those of the
    synthetic results hold none either: the spaces of the title and of the
    query are replaced. *)
Theorem result_addresses_hold_no_space item clock q :
  contains " " (r_url (wikipedia_result item)) = false /\
  Forall (fun r => contains " " (r_url r) = false) (search_mock clock q).
Proof.
  split.
  - cbn [wikipedia_result plain_result r_url].
    rewrite contains_char_app, replace_char_gone by done. reflexivity.
  - unfold search_mock. repeat constructor; cbn [plain_result r_url];
      rewrite contains_char_app, replace_char_gone by done; reflexivity.
Qed.

Lemma slice_to_length {A} n (items : list A) :
  (0 <= n)%Z -> length (slice_to n items) <= Z.to_nat n.
Proof.
  intros Hn. unfold slice_to. destruct (Z.leb_spec 0 n); [|lia].
  rewrite length_take. lia.
Qed.

(** The Tavily client never raises, tags every result Tavily and calls
    the HTTP client at most once; for a limit that is not negative it
    returns at most one direct answer followed by at most [max_results]
    results, and no direct answer without [include_answer].  (A negative
    limit is a slice from the end, which the bound does not cover.) *)
Theorem tavily_search_bounded tv net q n include_answer log :
  exists results log',
    TavilySearchIntegration.search tv net q n include_answer log = (Ok results, log') /\
    Forall (fun r => r_source r = "Tavily") results /\
    (log' = log \/ log' = log ++ [Post (TavilySearchIntegration.base_url tv)]) /\
    ((0 <= n)%Z -> length results <= Z.to_nat n + (if include_answer then 1 else 0)).
Proof.
  unfold TavilySearchIntegration.search.
  destruct (negb (truthy_opt (TavilySearchIntegration.api_key tv))).
  { exists [], log. split; [done|]. split; [constructor|]. split; [by left|].
    intros _. simpl. lia. }
  rename n into limit.
  unfold eff_try, mbind, stateful_bind, http.
  destruct (tavily_response net) as [[answer items]|e]; cbn [fst snd].
  - eexists _, _. split; [reflexivity|].
    assert (Htag : Forall (fun r => r_source r = "Tavily")
                     (map TavilySearchIntegration.formatted_result (slice_to limit items))).
    { apply Forall_forall. intros r Hr. apply list_elem_of_In, in_map_iff in Hr.
      by destruct Hr as (item & <- & _). }
    split; [|split; [by right|]].
    + destruct (include_answer && truthy_opt answer); [|done].
      by constructor.
    + intros Hlimit. pose proof (slice_to_length limit items Hlimit) as Hitems.
      rewrite length_app, length_map.
      destruct include_answer; cbn [andb]; [|simpl; lia].
      destruct (truthy_opt answer); simpl; lia.
  - exists [], (log ++ [Post (TavilySearchIntegration.base_url tv)]).
    split; [done|]. split; [constructor|]. split; [by right|].
    intros _. simpl. lia.
Qed.

Lemma tavily_search_bounded_witness :
  exists results log',
    TavilySearchIntegration.search (tavily Samples.keyed) Samples.crowded_net "rocq" 1%Z false [] =
      (Ok results, log') /\
    length results <= 1.
Proof.
  destruct (tavily_search_bounded (tavily Samples.keyed) Samples.crowded_net "rocq" 1%Z false [])
    as (results & log' & E & _ & _ & Hbound).
  exists results, log'. split; [exact E|]. apply Hbound. lia.
Defined.

Lemma arxiv_result_ok e r :
  arxiv_result e = Ok (Some r) ->
  r_source r = "ArXiv" /\ String.length (r_snippet r) <= 300.
Proof.
  unfold arxiv_result, elem_text.
  destruct (title_elem e) as [title|]; [|discriminate].
  destruct (id_elem e) as [id|]; [|discriminate].
  destruct (summary_elem e) as [summary|]; [|discriminate].
  unfold mbind, result_bind. intros H.
  assert (Hr : r = plain_result (str_or title "No title")
                     (replace "http://" "https://" (str_or id ""))
                     (take_prefix 300 (str_or summary "")) "ArXiv") by congruence.
  rewrite Hr. split; [reflexivity|]. apply take_prefix_length.
Qed.

(** The ArXiv loop returns at most one result per entry, each tagged
    ArXiv with a snippet of at most 300 characters; an entry with a title
    but without an id or without a summary is skipped and does not stop
    the loop. *)
Theorem arxiv_results_bounded entries :
  length (arxiv_results entries) <= length entries /\
  Forall (fun r => r_source r = "ArXiv" /\ String.length (r_snippet r) <= 300)
         (arxiv_results entries) /\
  (forall title summary,
     arxiv_results ({| title_elem := Some title; summary_elem := summary; id_elem := None |}
                    :: entries) = arxiv_results entries) /\
  (forall title id,
     arxiv_results ({| title_elem := Some title; summary_elem := None; id_elem := id |}
                    :: entries) = arxiv_results entries).
Proof.
  split; [|split; [|split]].
  - induction entries as [|e entries IH]; cbn [arxiv_results length]; [lia|].
    destruct (arxiv_result e) as [[r|]|]; cbn [length]; lia.
  - induction entries as [|e entries IH]; cbn [arxiv_results]; [constructor|].
    destruct (arxiv_result e) as [[r|]|] eqn:E; try done.
    constructor; [|done]. by apply (arxiv_result_ok e).
  - reflexivity.
  - intros title [id|]; reflexivity.
Qed.

(** ** The chain *)

(** Every result of a provider carries its tag. *)
Definition tagged_by (name : string) (provider : Eff (list SearchResult)) : Prop :=
  forall log results log',
    provider log = (Ok results, log') -> Forall (fun r => r_source r = name) results.

(** All the results of a computation carry one tag among [names]. *)
Definition one_tag_of (names : list string) (m : Eff (list SearchResult)) : Prop :=
  forall log, exists results log' name,
    m log = (Ok results, log') /\ In name names /\
    Forall (fun r => r_source r = name) results.

Lemma level_one_tag names name provider continue :
  In name names -> tagged_by name provider ->
  one_tag_of names continue -> one_tag_of names (level provider continue).
Proof.
  intros Hin Hp Hk log. unfold level, mbind, stateful_bind, eff_try.
  destruct (provider log) as [[[|r rs]|e] log1] eqn:E; cbn [nonempty].
  - apply Hk.
  - exists (r :: rs), log1, name. split; [done|]. split; [done|]. by apply (Hp log _ log1).
  - apply Hk.
Qed.

Lemma tagged_map {A} name (f : A -> SearchResult) (items : list A) :
  (forall item, r_source (f item) = name) ->
  Forall (fun r => r_source r = name) (map f items).
Proof.
  intros Hf. apply Forall_forall. intros r Hr.
  apply list_elem_of_In, in_map_iff in Hr. by destruct Hr as (item & <- & _).
Qed.

(** A provider of the form: gate, one request, one tagged result per
    decoded item. *)
Lemma tagged_guarded {A} name (gate : bool) rq (answer : result (list A))
    (f : list A -> list SearchResult) :
  (forall items, Forall (fun r => r_source r = name) (f items)) ->
  tagged_by name
    (if gate then mret []
     else eff_try (items ← http rq answer; mret (f items)) (fun _ => mret [])).
Proof.
  intros Hf log results log'. destruct gate.
  - intros [= <- _]. constructor.
  - unfold eff_try, mbind, stateful_bind, http.
    destruct answer as [items|e]; intros [= <- _]; [apply Hf | constructor].
Qed.

Lemma search_tavily_tagged self net q limit : tagged_by "Tavily" (search_tavily self net q limit).
Proof.
  intros log results log'. unfold search_tavily, TavilySearchIntegration.search.
  destruct (negb (truthy_opt _)); [intros [= <- _]; constructor|].
  unfold eff_try, mbind, stateful_bind, http.
  destruct (tavily_response net) as [[answer items]|e]; cbn [fst snd];
    intros [= <- _]; [|constructor].
  apply Forall_app. split.
  - destruct (truthy_opt answer); by repeat constructor.
  - by apply tagged_map.
Qed.

Lemma search_wikipedia_tagged self net q limit :
  tagged_by "Wikipedia" (search_wikipedia self net q limit).
Proof.
  apply (tagged_guarded "Wikipedia" false _ _ (map wikipedia_result)).
  intros items. by apply tagged_map.
Qed.

Lemma search_arxiv_tagged self net q limit : tagged_by "ArXiv" (search_arxiv self net q limit).
Proof.
  apply (tagged_guarded "ArXiv" false _ _ arxiv_results).
  intros entries. induction entries as [|e entries IH]; cbn [arxiv_results]; [constructor|].
  destruct (arxiv_result e) as [[r|]|] eqn:E; try done.
  constructor; [|done]. by apply (arxiv_result_ok e).
Qed.

Lemma search_google_tagged self net q limit :
  tagged_by "Google" (search_google_api self net q limit).
Proof.
  apply (tagged_guarded "Google" _ _ _
           (fun items => map google_result (slice_to (limit_or limit (max_results self)) items))).
  intros items. by apply tagged_map.
Qed.

Lemma search_bing_tagged self net q limit : tagged_by "Bing" (search_bing_api self net q limit).
Proof.
  apply (tagged_guarded "Bing" _ _ _
           (fun items => map bing_result (slice_to (limit_or limit (max_results self)) items))).
  intros items. by apply tagged_map.
Qed.

(** All the results of one [search] come from one backend: they carry
    the same tag, one of the five provider names or Local Cache.  Results
    of different providers are never merged. *)
Theorem search_has_one_provenance self net clock q max_results_arg log :
  exists results log' name,
    search self net clock q max_results_arg log = (Ok results, log') /\
    In name (real_provider_names ++ ["Local Cache"]) /\
    Forall (fun r => r_source r = name) results.
Proof.
  set (names := real_provider_names ++ ["Local Cache"]).
  assert (Hmock : one_tag_of names (mret (search_mock clock q))).
  { intros l. exists (search_mock clock q), l, "Local Cache".
    split; [done|]. split; [simpl; tauto|]. repeat constructor. }
  unfold search.
  apply (level_one_tag names "Tavily"); [simpl; tauto | apply search_tavily_tagged |].
  apply (level_one_tag names "Wikipedia"); [simpl; tauto | apply search_wikipedia_tagged |].
  apply (level_one_tag names "ArXiv"); [simpl; tauto | apply search_arxiv_tagged |].
  apply (level_one_tag names "Google"); [simpl; tauto | apply search_google_tagged |].
  apply (level_one_tag names "Bing"); [simpl; tauto | apply search_bing_tagged |].
  exact Hmock.
Qed.

(** ** The requests of a search *)

(** The requests a computation adds to those issued before it are, in
    order, some of [allowed]. *)
Definition requests_within {A} (allowed : list request) (m : Eff A) : Prop :=
  forall log, exists new, snd (m log) = log ++ new /\ sublist new allowed.

Lemma level_requests a b provider continue :
  requests_within a provider -> requests_within b continue ->
  requests_within (a ++ b) (level provider continue).
Proof.
  intros Hp Hk log. unfold level, mbind, stateful_bind, eff_try.
  destruct (Hp log) as (n1 & H1 & S1).
  destruct (provider log) as [[[|r rs]|e] log1]; cbn [snd nonempty] in *; subst log1.
  - destruct (Hk (log ++ n1)) as (n2 & H2 & S2). exists (n1 ++ n2).
    rewrite H2, app_assoc. split; [done|]. by apply sublist_app.
  - exists n1. split; [done|]. rewrite <- (app_nil_r n1).
    apply sublist_app; [done|]. apply sublist_nil_l.
  - destruct (Hk (log ++ n1)) as (n2 & H2 & S2). exists (n1 ++ n2).
    cbn [mret stateful_ret nonempty]. rewrite H2, app_assoc.
    split; [done|]. by apply sublist_app.
Qed.


Lemma silent_requests {A} (a : A) allowed : requests_within allowed (mret a).
Proof. intros log. exists []. split; [by rewrite app_nil_r | apply sublist_nil_l]. Qed.

(** A provider of the form: gate, one request, a pure decoding. *)
Lemma guarded_requests {A B} (gate : bool) rq (answer : result A) (f : A -> B) (b : B) :
  requests_within [rq]
    (if gate then mret b
     else eff_try (items ← http rq answer; mret (f items)) (fun _ => mret b)).
Proof.
  destruct gate; [apply silent_requests|].
  intros log. exists [rq]. split; [|done].
  unfold eff_try, mbind, stateful_bind, http. by destruct answer.
Qed.

(** The five addresses, in the order of the chain. *)
Definition endpoints (self : t) : list request :=
  [ Post (TavilySearchIntegration.base_url (tavily self));
    Get "https://en.wikipedia.org/w/api.php";
    Get "http://export.arxiv.org/api/query";
    Get "https://www.googleapis.com/customsearch/v1";
    Get "https://api.bing.microsoft.com/v7.0/search" ].

Lemma search_tavily_requests self net q limit :
  requests_within [Post (TavilySearchIntegration.base_url (tavily self))]
    (search_tavily self net q limit).
Proof.
  unfold search_tavily, TavilySearchIntegration.search.
  apply (guarded_requests _ _ _
           (fun data => (if true && truthy_opt (fst data)
                         then [TavilySearchIntegration.direct_answer (default "" (fst data))]
                         else [])
                        ++ map TavilySearchIntegration.formatted_result
                             (slice_to (limit_or limit (max_results self)) (snd data)))).
Qed.

Lemma search_requests self net clock q max_results_arg :
  requests_within (endpoints self) (search self net clock q max_results_arg).
Proof.
  unfold search, endpoints.
  apply (level_requests [_] [_; _; _; _]); [apply search_tavily_requests|].
  apply (level_requests [_] [_; _; _]);
    [apply (guarded_requests false _ _ (map wikipedia_result))|].
  apply (level_requests [_] [_; _]); [apply (guarded_requests false _ _ arxiv_results)|].
  apply (level_requests [_] [_]).
  { unfold search_google_api. apply (guarded_requests _ _ _ (fun items => map google_result _)). }
  apply (level_requests [_] []).
  { unfold search_bing_api. apply (guarded_requests _ _ _ (fun items => map bing_result _)). }
  apply silent_requests.
Qed.

(** One [search] calls the HTTP client at most five times, at most once
    for each provider and in the order of the chain; the calls made
    before it stay in the log.  (The retries that the session's adapter
    makes inside one call are not counted.) *)
Theorem search_request_budget self net clock q max_results_arg log :
  exists results new,
    search self net clock q max_results_arg log = (Ok results, log ++ new) /\
    sublist new (endpoints self) /\
    length new <= 5.
Proof.
  destruct (search_yields self net clock q max_results_arg log) as (results & log' & E & _).
  destruct (search_requests self net clock q max_results_arg log) as (new & Hnew & Hsub).
  rewrite E in Hnew. cbn [snd] in Hnew. subst log'.
  exists results, new. split; [done|]. split; [done|].
  apply sublist_length in Hsub. exact Hsub.
Qed.

(** Without any credential a [search] calls the HTTP client for
    Wikipedia and ArXiv only, at most once each and in that order, and
    all its results carry one tag among Wikipedia, ArXiv and Local
    Cache. *)
Theorem search_without_credentials self net clock q max_results_arg log :
  truthy_opt (TavilySearchIntegration.api_key (tavily self)) = false ->
  truthy_opt (google_api_key self) = false \/
    truthy_opt (google_search_engine_id self) = false ->
  truthy_opt (bing_api_key self) = false ->
  exists results new name,
    search self net clock q max_results_arg log = (Ok results, log ++ new) /\
    sublist new [Get "https://en.wikipedia.org/w/api.php";
                 Get "http://export.arxiv.org/api/query"] /\
    In name ["Wikipedia"; "ArXiv"; "Local Cache"] /\
    Forall (fun r => r_source r = name) results /\
    1 <= length results.
Proof.
  intros Ht Hg Hb.
  assert (Hgate : negb (truthy_opt (google_api_key self))
                  || negb (truthy_opt (google_search_engine_id self)) = true).
  { destruct Hg as [-> | ->]; [done | apply orb_true_r]. }
  set (names := ["Wikipedia"; "ArXiv"; "Local Cache"]).
  assert (Hreq : requests_within
            ([] ++ [Get "https://en.wikipedia.org/w/api.php"]
                ++ [Get "http://export.arxiv.org/api/query"] ++ [] ++ [] ++ [])
            (search self net clock q max_results_arg)).
  { unfold search.
    apply level_requests.
    { unfold search_tavily, TavilySearchIntegration.search. rewrite Ht. apply silent_requests. }
    apply level_requests; [apply (guarded_requests false _ _ (map wikipedia_result))|].
    apply level_requests; [apply (guarded_requests false _ _ arxiv_results)|].
    apply level_requests.
    { unfold search_google_api. rewrite Hgate. apply silent_requests. }
    apply level_requests.
    { unfold search_bing_api. rewrite Hb. apply silent_requests. }
    apply silent_requests. }
  assert (Htag : one_tag_of names (search self net clock q max_results_arg)).
  { assert (Hempty : forall n, tagged_by n (mret [] : Eff (list SearchResult))).
    { intros n l rs l' [= <- _]. constructor. }
    unfold search.
    apply (level_one_tag names "Wikipedia"); [simpl; tauto | |].
    { unfold search_tavily, TavilySearchIntegration.search. rewrite Ht. apply Hempty. }
    apply (level_one_tag names "Wikipedia"); [simpl; tauto | apply search_wikipedia_tagged |].
    apply (level_one_tag names "ArXiv"); [simpl; tauto | apply search_arxiv_tagged |].
    apply (level_one_tag names "ArXiv"); [simpl; tauto | |].
    { unfold search_google_api. rewrite Hgate. apply Hempty. }
    apply (level_one_tag names "ArXiv"); [simpl; tauto | |].
    { unfold search_bing_api. rewrite Hb. apply Hempty. }
    intros l. exists (search_mock clock q), l, "Local Cache".
    split; [done|]. split; [simpl; tauto|]. repeat constructor. }
  destruct (search_yields self net clock q max_results_arg log) as (results & log' & E & Hlen).
  destruct (Hreq log) as (new & Hnew & Hsub).
  destruct (Htag log) as (results' & log'' & name & E' & Hin & Hall).
  rewrite E in Hnew, E'. cbn [snd] in Hnew. subst log'. injection E' as <- _.
  exists results, new, name. split; [done|]. split; [exact Hsub|]. by split.
Qed.

Lemma search_without_credentials_witness :
  exists results new name,
    search Samples.no_keys Samples.dead_net Samples.clock "rocq" None [] = (Ok results, [] ++ new) /\
    sublist new [Get "https://en.wikipedia.org/w/api.php";
                 Get "http://export.arxiv.org/api/query"] /\
    In name ["Wikipedia"; "ArXiv"; "Local Cache"] /\
    Forall (fun r => r_source r = name) results /\
    1 <= length results.
Proof.
  apply (search_without_credentials Samples.no_keys Samples.dead_net Samples.clock "rocq" None []);
    [reflexivity | left; reflexivity | reflexivity].
Defined.



(** A limit of zero is no limit: [search] falls back on the limit of the
    instance, exactly as when no limit is given. *)
Theorem search_zero_limit_is_default self net clock q :
  search self net clock q (Some 0%Z) = search self net clock q None.
Proof. reflexivity. Qed.

(** The Google and Bing clients never raise and tag their results with
    their names; a failed request gives the empty list, and for a limit
    that is not negative they return at most that many results.  (A
    negative limit is a slice from the end, which the bound does not
    cover.) *)
Theorem api_results_bounded self net q max_results_arg log :
  let limit := limit_or max_results_arg (max_results self) in
  (exists results log',
      search_google_api self net q max_results_arg log = (Ok results, log') /\
      Forall (fun r => r_source r = "Google") results /\
      match google_response net with Raise _ => results = [] | Ok _ => True end /\
      ((0 <= limit)%Z -> length results <= Z.to_nat limit)) /\
  (exists results log',
      search_bing_api self net q max_results_arg log = (Ok results, log') /\
      Forall (fun r => r_source r = "Bing") results /\
      match bing_response net with Raise _ => results = [] | Ok _ => True end /\
      ((0 <= limit)%Z -> length results <= Z.to_nat limit)).
Proof.
  intros limit. split.
  - unfold search_google_api. destruct (_ || _).
    { exists [], log. split; [done|]. split; [constructor|].
      split; [by destruct (google_response net) | intros _; simpl; lia]. }
    unfold eff_try, mbind, stateful_bind, http. fold limit.
    destruct (google_response net) as [items|e]; eexists _, _; (split; [reflexivity|]).
    + split; [by apply tagged_map|]. split; [done|].
      intros Hlimit. rewrite length_map. by apply slice_to_length.
    + split; [constructor|]. split; [done | intros _; simpl; lia].
  - unfold search_bing_api. destruct (negb _).
    { exists [], log. split; [done|]. split; [constructor|].
      split; [by destruct (bing_response net) | intros _; simpl; lia]. }
    unfold eff_try, mbind, stateful_bind, http. fold limit.
    destruct (bing_response net) as [items|e]; eexists _, _; (split; [reflexivity|]).
    + split; [by apply tagged_map|]. split; [done|].
      intros Hlimit. rewrite length_map. by apply slice_to_length.
    + split; [constructor|]. split; [done | intros _; simpl; lia].
Qed.

Lemma api_results_bounded_witness :
  (exists results log',
      search_google_api Samples.with_api_keys Samples.crowded_net "rocq" None [] =
        (Ok results, log') /\
      length results <= 1) /\
  (exists results log',
      search_bing_api Samples.with_api_keys Samples.crowded_net "rocq" None [] =
        (Ok results, log') /\
      length results <= 1).
Proof.
  destruct (api_results_bounded Samples.with_api_keys Samples.crowded_net "rocq" None [])
    as ((rg & lg & Eg & _ & _ & Hg) & (rb & lb & Eb & _ & _ & Hb)).
  split.
  - exists rg, lg. split; [exact Eg|]. apply Hg. done.
  - exists rb, lb. split; [exact Eb|]. apply Hb. done.
Defined.

(** ** Fetching the pages *)

(** The addresses [search_and_extract] fetches: those of the results
    that are not empty and start with http. *)
Definition fetched_addresses (results : list SearchResult) : list request :=
  map (fun r => Get (r_url r))
      (List.filter (fun r => truthy (r_url r) && startswith (r_url r) "http") results).

Lemma extract_one_requests self net r log :
  snd (extract_one self net r log) =
    log ++ (if truthy (r_url r) && startswith (r_url r) "http" then [Get (r_url r)] else []).
Proof.
  unfold extract_one.
  destruct (truthy (r_url r) && startswith (r_url r) "http") eqn:E;
    [|by rewrite app_nil_r].
  apply andb_true_iff in E as [E1 E2].
  unfold eff_try, mbind, stateful_bind, fetch_page_content, fetch_page_body, eff_try, http.
  rewrite E1, E2. cbn [negb orb].
  unfold mbind, stateful_bind. by destruct (page_text net (r_url r)).
Qed.

Lemma extract_all_requests self net results : forall log,
  snd (extract_all self net results log) = log ++ fetched_addresses results.
Proof.
  induction results as [|r rest IH]; intros log; cbn [extract_all].
  - by rewrite app_nil_r.
  - unfold mbind, stateful_bind.
    pose proof (extract_one_requests self net r log) as H1.
    destruct (extract_one_enriched self net r log) as [log1 E1]. rewrite E1 in *.
    cbn [snd] in H1. subst log1.
    specialize (IH (log ++ (if truthy (r_url r) && startswith (r_url r) "http"
                            then [Get (r_url r)] else []))).
    destruct (extract_all_enriched self net rest
                (log ++ (if truthy (r_url r) && startswith (r_url r) "http"
                         then [Get (r_url r)] else []))) as [log2 E2].
    rewrite E2 in *. cbn [snd] in *. subst log2.
    unfold fetched_addresses. cbn [List.filter].
    destruct (truthy (r_url r) && startswith (r_url r) "http"); cbn [map];
      by rewrite <- app_assoc.
Qed.

(** For results whose url is a text, as [SearchResult] has them: with
    content fetching, [search_and_extract] makes the client calls of
    [search] and then one call of [session.get] per result whose address
    is not empty and starts with http, in the order of the results, and
    returns as many results as [search]; without content fetching it is
    [search].  (Retries and redirects inside a call are not counted.) *)
Theorem search_and_extract_requests self net clock q log :
  search_and_extract self net clock q false log = search self net clock q None log /\
  exists results log1 extracted,
    search self net clock q None log = (Ok results, log1) /\
    search_and_extract self net clock q true log =
      (Ok extracted, log1 ++ fetched_addresses results) /\
    length extracted = length results.
Proof.
  split.
  - unfold search_and_extract, mbind, stateful_bind.
    destruct (search self net clock q None log) as [[rs|e] l]; [|done].
    cbn [negb]. by rewrite orb_true_r.
  - destruct (search_yields self net clock q None log) as (results & log1 & Hs & Hlen).
    pose proof (extract_all_requests self net results log1) as Hreq.
    destruct (extract_all_enriched self net results log1) as [log2 He].
    rewrite He in Hreq. cbn [snd] in Hreq. subst log2.
    exists results, log1, (map (enriched net) results).
    split; [done|]. split; [|by rewrite length_map].
    unfold search_and_extract, mbind, stateful_bind. rewrite Hs.
    destruct results; [simpl in Hlen; lia|]. exact He.
Qed.

Lemma search_and_extract_yields self net clock q fetch_content :
  yields_results (search_and_extract self net clock q fetch_content).
Proof.
  intros log.
  destruct (search_yields self net clock q None log) as (results & log1 & Hs & Hlen).
  unfold search_and_extract, mbind, stateful_bind. rewrite Hs.
  destruct results as [|r rs]; [simpl in Hlen; lia|]. cbn [nonempty negb orb].
  destruct fetch_content; cbn [negb].
  - destruct (extract_all_enriched self net (r :: rs) log1) as [log2 ->].
    eexists _, _. split; [done|]. rewrite length_map. simpl; lia.
  - eexists _, _. split; [done|]. simpl; lia.
Qed.

(** ** Formatting and the hybrid helper *)

Lemma prefix_append p s : String.prefix p (p +:+ s) = true.
Proof.
  induction p as [|c p IH]; [by destruct s|].
  change (String c p +:+ s) with (String c (p +:+ s)).
  cbn [String.prefix]. destruct (ascii_dec c c); [exact IH | done].
Qed.

(** For results whose snippet and full content are texts, as
    [SearchResult] has them: the text built from the results of a
    [search] is never the notice for an empty list; it starts with the
    dated header. *)
Theorem formatted_search_has_header self net clock q max_results_arg log :
  exists results log',
    search self net clock q max_results_arg log = (Ok results, log') /\
    startswith (format_results_for_context clock results)
      "=== WEB SEARCH RESULTS (As of " = true /\
    format_results_for_context clock results <> "No search results available." /\
    format_results_for_context clock [] = "No search results available.".
Proof.
  destruct (search_yields self net clock q max_results_arg log) as (results & log' & E & Hlen).
  exists results, log'. split; [done|].
  destruct results as [|r rs]; [simpl in Hlen; lia|].
  unfold format_results_for_context. cbn [nonempty negb].
  assert (H : startswith
                ("=== WEB SEARCH RESULTS (As of " +:+ current_date clock +:+ ") ===" +:+ newline
                   +:+ newline +:+ context_entries 1 (r :: rs))
                "=== WEB SEARCH RESULTS (As of " = true) by apply prefix_append.
  split; [exact H|]. split; [|done].
  intros Heq. rewrite Heq in H. discriminate H.
Qed.

(** [hybrid_retrieve] never raises: it returns the local results it was
    given, the query, the type hybrid and at least one web result; asking
    for zero web results is asking for the default number. *)
Theorem hybrid_retrieve_total {A} (self : HybridSearchEnhanced.t) net clock q
    (locals : list A) web_results_count log :
  (exists out log',
      HybridSearchEnhanced.hybrid_retrieve self net clock q locals web_results_count log =
        (Ok out, log') /\
      HybridSearchEnhanced.local_results out = locals /\
      1 <= length (HybridSearchEnhanced.web_results out) /\
      HybridSearchEnhanced.query out = q /\
      HybridSearchEnhanced.retrieval_type out = "hybrid") /\
  HybridSearchEnhanced.hybrid_retrieve self net clock q locals 0%Z log =
    HybridSearchEnhanced.hybrid_retrieve self net clock q locals
      (max_results (HybridSearchEnhanced.web_search self)) log.
Proof.
  split.
  - unfold HybridSearchEnhanced.hybrid_retrieve, mbind, stateful_bind.
    destruct (search_yields (HybridSearchEnhanced.web_search self) net clock q
                (Some web_results_count) log) as (results & log' & -> & Hlen).
    by eexists _, _.
  - unfold HybridSearchEnhanced.hybrid_retrieve, search, limit_or. cbn [Z.eqb].
    by destruct (max_results (HybridSearchEnhanced.web_search self) =? 0)%Z.
Qed.

End WebSearchMore.

(* ===================================================================== *)
(** * Further facts about the router                                     *)
(* ===================================================================== *)

Module RouterMore.

Import QueryClassifier IntelligentSourceRouter.
Import QueryClassifierFacts QueryClassifierMore WebSearchFacts WebSearchMore RouterFacts.

(** ** The results of the retrieval methods *)

(** A retrieval result of a kind: the type of retrieval is the kind, the
    keys query and routing are absent, and the list of sources is empty
    when the key error is present. *)
Definition retrieval_of (kind : string) (r : gmap string value) : Prop :=
  r !! "retrieval_type" = Some (VStr kind) /\
  r !! "routing" = None /\ r !! "query" = None /\
  exists sources,
    r !! "sources" = Some (VSources sources) /\
    (r !! "error" = None \/ sources = []).

Ltac found := rewrite ?lookup_insert_ne by done; apply lookup_insert_eq.

Ltac retrieval_shape :=
  split; [found|]; split; [other_keys|]; split; [other_keys|];
  eexists; (split; [found|]); first [by right | left; other_keys].

Lemma _retrieve_local_shape self q retr r :
  _retrieve_local self q retr = Ok r -> retrieval_of "local_rag" r.
Proof.
  unfold _retrieve_local. destruct retr as [get|].
  - unfold try_except. destruct (get q) as [docs|e]; cbn [mbind result_bind].
    + destruct (negb (nonempty docs)); intros [= <-]; retrieval_shape.
    + intros [= <-]; retrieval_shape.
  - intros [= <-]; retrieval_shape.
Qed.

Lemma _retrieve_web_shape self w q r :
  _retrieve_web self w q = Ok r -> retrieval_of "web_search" r.
Proof.
  unfold _retrieve_web. destruct (web_search self) as [ws|].
  - unfold try_except. destruct (fst (run _)) as [rs|e]; cbn [mbind result_bind].
    + destruct (negb (nonempty rs)); intros [= <-]; retrieval_shape.
    + intros [= <-]; unfold web_error; retrieval_shape.
  - intros [= <-]; retrieval_shape.
Qed.

Lemma _retrieve_hybrid_shape self w q retr r :
  _retrieve_hybrid self w q retr = Ok r -> retrieval_of "hybrid" r.
Proof. unfold _retrieve_hybrid, try_except. intros [= <-]; retrieval_shape. Qed.

Lemma dispatch_shape self w q retr ds r :
  In ds valid_sources -> dispatch self w q retr ds = Ok r -> retrieval_of ds r.
Proof.
  intros [<-|[<-|[<-|[]]]]; unfold dispatch; cbn [String.eqb Ascii.eqb Bool.eqb].
  - apply _retrieve_local_shape.
  - apply _retrieve_web_shape.
  - apply _retrieve_hybrid_shape.
Qed.

(** ** The decision *)

Lemma routing_decision_valid lib self w q has_docs routing :
  routing_decision lib self w q has_docs = Ok routing ->
  In (datasource routing) valid_sources.
Proof.
  unfold routing_decision. destruct (query_classifier self) as [c|].
  - unfold classify_query, try_except.
    destruct (classify_with_llm lib c (llm w) q has_docs) as [r|e] eqn:E; intros [= <-].
    + by destruct (classify_with_llm_valid _ _ _ _ _ _ E).
    + apply fallback_valid.
  - intros [= <-]. cbn [datasource]. unfold _fallback_datasource_selection.
    destruct (_ && _ && _); [simpl; tauto|].
    destruct (_ && _); simpl; tauto.
Qed.

(** ** The outcome and its history entry *)

Lemma merged_from_retrieval q routing r k v :
  r !! k = Some v -> merged q routing r !! k = Some v.
Proof. intros H. unfold merged. by apply lookup_union_Some_l. Qed.

(** The outcome of every call names a valid source, and the retrieval
    that ran is the one the decision names: the branch of [route_query]
    for an unknown datasource is never taken. *)
Theorem retrieval_follows_decision lib self w q retr has_docs :
  exists out routing,
    fst (route_query lib self w q retr has_docs) = Ok out /\
    out !! "routing" = Some (VRouting routing) /\
    In (datasource routing) valid_sources /\
    out !! "retrieval_type" = Some (VStr (datasource routing)) /\
    dispatch self w q retr (datasource routing) =
      (if String.eqb (datasource routing) "local_rag" then _retrieve_local self q retr
       else if String.eqb (datasource routing) "web_search" then _retrieve_web self w q
       else _retrieve_hybrid self w q retr).
Proof.
  destruct (route_query_shape lib self w q retr has_docs) as (routing & r & Hd & Hr & ->).
  pose proof (routing_decision_valid _ _ _ _ _ _ Hd) as Hvalid.
  destruct (dispatch_shape _ _ _ _ _ _ Hvalid Hr) as (Htype & Hrouting & _).
  exists (merged q routing r), routing. cbn [fst].
  split; [done|]. split; [by apply merged_routing|]. split; [done|].
  split; [by apply merged_from_retrieval|].
  unfold dispatch. destruct Hvalid as [<-|[<-|[<-|[]]]]; reflexivity.
Qed.

(** The entry appended by a call mirrors the outcome: the query, the
    decision, the number of sources and the reading of the clock; its
    retrieval type is its datasource, and an entry with an error has no
    source. *)
Theorem history_entry_mirrors_outcome lib self w q retr has_docs :
  exists out routing sources entry,
    route_query lib self w q retr has_docs =
      (Ok out, with_history self (routing_history self ++ [entry])) /\
    out !! "routing" = Some (VRouting routing) /\
    out !! "sources" = Some (VSources sources) /\
    h_query entry = q /\
    h_datasource entry = datasource routing /\
    h_reasoning entry = reasoning routing /\
    h_confidence entry = confidence routing /\
    h_retrieval_type entry = h_datasource entry /\
    h_num_sources entry = length sources /\
    h_timestamp entry = iso_now (clock w) /\
    (h_error entry = None \/ h_num_sources entry = 0).
Proof.
  destruct (route_query_shape lib self w q retr has_docs) as (routing & r & Hd & Hr & ->).
  pose proof (routing_decision_valid _ _ _ _ _ _ Hd) as Hvalid.
  destruct (dispatch_shape _ _ _ _ _ _ Hvalid Hr)
    as (Htype & Hrouting & Hquery & sources & Hsources & Herr).
  exists (merged q routing r), routing, sources, (history_entry w (merged q routing r)).
  pose proof (merged_routing q routing r Hrouting) as H1.
  pose proof (merged_query q routing r Hquery) as H2.
  pose proof (merged_from_retrieval q routing r _ _ Htype) as H3.
  pose proof (merged_from_retrieval q routing r _ _ Hsources) as H4.
  unfold history_entry, get_str, get_routing, num_sources, get_error.
  cbn [h_query h_datasource h_reasoning h_confidence h_retrieval_type h_num_sources
       h_error h_timestamp].
  rewrite H1, H2, H3, H4, merged_error.
  repeat (split; [reflexivity|]).
  destruct Herr as [-> | ->]; [by left | by right].
Qed.

(** ** Web retrieval *)

(** For search results whose url is a text, as [SearchResult] has them:
    with web search enabled [_retrieve_web] always has results; no error
    is reported, the sources are the results in order, and the count is
    their number. *)
Theorem web_retrieval_counts self w q ws :
  web_search self = Some ws ->
  exists r results,
    _retrieve_web self w q = Ok r /\
    1 <= length results /\
    r !! "raw_search_results" = Some (VResults results) /\
    r !! "num_results" = Some (VInt (length results)) /\
    r !! "sources" = Some (VSources (map web_source results)) /\
    r !! "error" = None.
Proof.
  intros Hws. unfold _retrieve_web. rewrite Hws. unfold run.
  destruct (search_and_extract_yields ws (net w) (clock w) q (fetch_full_content self) [])
    as (results & log' & -> & Hlen).
  cbn [fst try_except mbind result_bind].
  destruct results as [|x xs]; [simpl in Hlen; lia|]. cbn [nonempty negb].
  eexists _, (x :: xs). split; [reflexivity|]. split; [exact Hlen|].
  split; [found|]. split; [found|]. split; [found|]. other_keys.
Qed.

Lemma web_retrieval_counts_witness :
  exists r results,
    _retrieve_web Samples.router Samples.failing_world "rocq" = Ok r /\
    1 <= length results /\
    r !! "raw_search_results" = Some (VResults results) /\
    r !! "num_results" = Some (VInt (length results)) /\
    r !! "sources" = Some (VSources (map web_source results)) /\
    r !! "error" = None.
Proof.
  apply (web_retrieval_counts Samples.router Samples.failing_world "rocq" Samples.no_keys).
  reflexivity.
Defined.

(** With web search disabled and no uploaded documents every call ends in
    the error Web search not enabled, with no source, and the history
    records that error. *)
Theorem disabled_web_search_is_reported lib self w q retr :
  web_search self = None ->
  exists out entry,
    route_query lib self w q retr false =
      (Ok out, with_history self (routing_history self ++ [entry])) /\
    out !! "error" = Some (VStr "Web search not enabled") /\
    out !! "context" = Some (VStr "Web search is not enabled.") /\
    out !! "sources" = Some (VSources []) /\
    h_error entry = Some "Web search not enabled" /\
    h_num_sources entry = 0.
Proof.
  intros Hws.
  destruct (route_query_shape lib self w q retr false) as (routing & r & Hd & Hr & ->).
  rewrite (routing_decision_no_docs _ _ _ _ _ Hd) in Hr.
  unfold dispatch in Hr. cbn [String.eqb Ascii.eqb Bool.eqb] in Hr.
  unfold _retrieve_web in Hr. rewrite Hws in Hr. injection Hr as <-.
  eexists _, _. split; [reflexivity|].
  assert (He : forall routing' r', r' !! "error" = Some (VStr "Web search not enabled") ->
                 get_error (merged q routing' r') = Some "Web search not enabled").
  { intros routing' r' H. unfold get_error. by rewrite merged_error, H. }
  assert (Hs : forall routing' r', r' !! "sources" = Some (VSources []) ->
                 num_sources (merged q routing' r') = 0).
  { intros routing' r' H. unfold num_sources.
    by rewrite (merged_from_retrieval _ _ _ _ _ H). }
  split; [apply merged_from_retrieval; found|].
  split; [apply merged_from_retrieval; found|].
  split; [apply merged_from_retrieval; found|].
  cbn [history_entry h_error h_num_sources].
  split; [apply He; found | apply Hs; found].
Qed.

Lemma disabled_web_search_is_reported_witness :
  exists out entry,
    route_query Samples.lib Samples.offline_router Samples.failing_world "rocq" None false =
      (Ok out, with_history Samples.offline_router
                 (routing_history Samples.offline_router ++ [entry])) /\
    out !! "error" = Some (VStr "Web search not enabled") /\
    out !! "context" = Some (VStr "Web search is not enabled.") /\
    out !! "sources" = Some (VSources []) /\
    h_error entry = Some "Web search not enabled" /\
    h_num_sources entry = 0.
Proof.
  apply (disabled_web_search_is_reported Samples.lib Samples.offline_router
           Samples.failing_world "rocq" None).
  reflexivity.
Defined.

(** ** Hybrid retrieval *)

(** [_retrieve_hybrid] never reports an error: a failure on either side
    leaves that side empty.  The total is the sum of the two counts and
    the number of sources, and the local sources come first.  For search
    results whose url is a text, as [SearchResult] has them, the web side
    is empty exactly when web search is disabled. *)
Theorem hybrid_retrieval_counts self w q retr :
  let locals := hybrid_local_results q retr in
  let webs := hybrid_web_results self w q in
  exists r sources,
    _retrieve_hybrid self w q retr = Ok r /\
    r !! "error" = None /\
    r !! "num_local_results" = Some (VInt (length locals)) /\
    r !! "num_web_results" = Some (VInt (length webs)) /\
    r !! "total_results" = Some (VInt (length sources)) /\
    r !! "sources" = Some (VSources sources) /\
    sources = map local_source locals ++ map hybrid_web_source webs /\
    r !! "raw_search_results" = Some (VResults webs) /\
    nonempty webs = match web_search self with Some _ => true | None => false end.
Proof.
  intros locals webs. unfold _retrieve_hybrid, try_except.
  eexists _, (map local_source locals ++ map hybrid_web_source webs).
  split; [reflexivity|]. fold locals webs.
  split; [other_keys|]. split; [found|]. split; [found|].
  split; [rewrite length_app, !length_map; found|].
  split; [found|]. split; [done|]. split; [found|].
  unfold webs, hybrid_web_results. destruct (web_search self) as [ws|]; [|done].
  unfold run.
  destruct (search_and_extract_yields ws (net w) (clock w) q (fetch_full_content self) [])
    as (results & log' & -> & Hlen).
  cbn [fst]. destruct results; [simpl in Hlen; lia | done].
Qed.

(** ** The history over several calls *)

Lemma after_call_history lib self c :
  exists entry,
    after_call lib self c =
      with_history self (routing_history self ++ [entry]) /\
    h_query entry = c_query c /\
    h_timestamp entry = iso_now (clock (c_world c)) /\
    h_retrieval_type entry = h_datasource entry /\
    In (h_datasource entry) valid_sources.
Proof.
  unfold after_call.
  destruct (route_query_shape lib self (c_world c) (c_query c) (c_retriever c) (c_has_docs c))
    as (routing & r & Hd & Hr & ->).
  pose proof (routing_decision_valid _ _ _ _ _ _ Hd) as Hvalid.
  destruct (dispatch_shape _ _ _ _ _ _ Hvalid Hr) as (Htype & Hrouting & Hquery & _).
  exists (history_entry (c_world c) (merged (c_query c) routing r)).
  split; [reflexivity|].
  unfold history_entry, get_str, get_routing.
  cbn [h_query h_datasource h_retrieval_type h_timestamp].
  rewrite (merged_routing _ _ _ Hrouting), (merged_query _ _ _ Hquery),
    (merged_from_retrieval _ _ _ _ _ Htype).
  done.
Qed.

(** The entry of a call: its query, its clock reading, and a retrieval
    type equal to a valid datasource. *)
Definition entry_of (c : Call) (entry : HistoryEntry) : Prop :=
  h_query entry = c_query c /\
  h_timestamp entry = iso_now (clock (c_world c)) /\
  h_retrieval_type entry = h_datasource entry /\
  In (h_datasource entry) valid_sources.

Lemma after_calls_history lib calls : forall self,
  exists new,
    after_calls lib self calls = with_history self (routing_history self ++ new) /\
    Forall2 entry_of calls new.
Proof.
  induction calls as [|c calls IH]; intros self.
  - exists []. split; [|constructor]. rewrite app_nil_r. by destruct self.
  - destruct (after_call_history lib self c) as (entry & E & He).
    destruct (IH (after_call lib self c)) as (new & E' & Hnew).
    exists (entry :: new). split; [|by constructor].
    change (after_calls lib self (c :: calls))
      with (after_calls lib (after_call lib self c) calls).
    rewrite E', E. unfold with_history. cbn. by rewrite <- app_assoc.
Qed.

(** The history is append-only: after any sequence of calls the earlier
    entries are still there, followed by one entry per call in the order
    of the calls, and the rest of the router is as it was. *)
Theorem history_is_append_only lib self calls :
  exists new,
    routing_history (after_calls lib self calls) = routing_history self ++ new /\
    Forall2 entry_of calls new /\
    length new = length calls /\
    query_classifier (after_calls lib self calls) = query_classifier self /\
    web_search (after_calls lib self calls) = web_search self /\
    fetch_full_content (after_calls lib self calls) = fetch_full_content self.
Proof.
  destruct (after_calls_history lib calls self) as (new & -> & Hnew).
  exists new. repeat split; try done.
  symmetry. by eapply Forall2_length.
Qed.

End RouterMore.

(* ===================================================================== *)
(** * Further facts about the statistics                                 *)
(* ===================================================================== *)

Module StatsMore.

Import QueryClassifier IntelligentSourceRouter.
Import RouterFacts RouterMore StatsFacts.

(** An entry written by [route_query]. *)
Definition written (entry : HistoryEntry) : Prop :=
  h_retrieval_type entry = h_datasource entry /\ In (h_datasource entry) valid_sources.

Lemma entries_written calls new : Forall2 entry_of calls new -> Forall written new.
Proof.
  induction 1 as [|c entry calls new (_ & _ & H1 & H2) _ IH]; constructor; [by split | done].
Qed.

Lemma tally_same_counts h : forall acc,
  Forall written h -> by_source acc = by_retrieval_type acc ->
  by_source (fold_left tally_entry h acc) = by_retrieval_type (fold_left tally_entry h acc).
Proof.
  induction h as [|entry h IH]; intros acc Hh Hacc; [done|].
  apply Forall_cons in Hh as [[He _] Hh]. cbn [fold_left]. apply IH; [done|].
  cbn [tally_entry by_source by_retrieval_type]. by rewrite He, Hacc.
Qed.

Lemma tally_keys h : forall acc k,
  Forall written h ->
  (In k valid_sources \/ by_source acc !! k = None) ->
  In k valid_sources \/ by_source (fold_left tally_entry h acc) !! k = None.
Proof.
  induction h as [|entry h IH]; intros acc k Hh Hacc; [done|].
  apply Forall_cons in Hh as [[_ He] Hh]. cbn [fold_left]. apply IH; [done|].
  destruct Hacc as [Hin|Hnone]; [by left|].
  cbn [tally_entry by_source]. unfold bump.
  destruct (decide (h_datasource entry = k)) as [<-|Hne]; [by left|].
  right. by rewrite lookup_insert_ne.
Qed.

(** The statistics after one or more calls on a new router: the total is
    the number of calls, the counts by source and by retrieval type are
    the same dictionary, its keys are valid sources and its values sum to
    the total, the number of errors is at most the total, and the keys
    success_rate and routing_history are present. *)
Theorem statistics_after_calls lib classifier enable ws fetch c calls :
  let self := after_calls lib (init classifier enable ws fetch) (c :: calls) in
  exists stats counts failures,
    get_routing_stats self = (Ok stats, self) /\
    stats !! "total_queries" = Some (SInt (S (length calls))) /\
    stats !! "by_source" = Some (SCounts counts) /\
    stats !! "by_retrieval_type" = Some (SCounts counts) /\
    sum_counts counts = S (length calls) /\
    (forall k, In k valid_sources \/ counts !! k = None) /\
    stats !! "error_count" = Some (SInt failures) /\
    failures <= S (length calls) /\
    is_Some (stats !! "success_rate") /\
    stats !! "routing_history" = Some (SHistory (routing_history self)).
Proof.
  intros self.
  destruct (after_calls_history lib (c :: calls) (init classifier enable ws fetch))
    as (new & E & Hnew).
  assert (Hh : routing_history self = new) by (unfold self; by rewrite E).
  pose proof (Forall2_length _ _ _ Hnew) as Hlen. cbn [length] in Hlen.
  pose proof (entries_written _ _ Hnew) as Hw.
  destruct (tally_from empty_tally new) as (H1 & H2 & _ & H4). cbn zeta in *.
  fold (tally new) in *.
  cbn [empty_tally by_source by_retrieval_type error_count] in H1, H2, H4.
  rewrite sum_counts_empty in *.
  pose proof (tally_same_counts new empty_tally Hw eq_refl) as Hsame. fold (tally new) in Hsame.
  unfold get_routing_stats. rewrite Hh.
  destruct new as [|entry new]; [discriminate Hlen|]. cbn [nonempty negb].
  eexists _, (by_source (tally (entry :: new))), (error_count (tally (entry :: new))).
  split; [reflexivity|].
  split; [rewrite <- Hlen; apply lookup_insert_eq|].
  split; [rewrite lookup_insert_ne by done; apply lookup_insert_eq|].
  split; [rewrite Hsame, !lookup_insert_ne by done; apply lookup_insert_eq|].
  split; [lia|].
  split; [intros k; apply tally_keys; [done | right; apply lookup_empty]|].
  split; [rewrite !lookup_insert_ne by done; apply lookup_insert_eq|].
  split; [pose proof (errors_length (entry :: new)); lia|].
  split; [rewrite !lookup_insert_ne by done; rewrite lookup_insert_eq; eauto|].
  rewrite !lookup_insert_ne by done. apply lookup_insert_eq.
Qed.

End StatsMore.
